(** * Great Lakes Ice Watch: the NOAA proxy pipeline of [server.py]

    A shallow embedding of [great-lakes-ice-site/server.py]: the secure
    fetcher ([_fetch_url], [_is_certificate_error]), the tabular decoder
    ([_fetch_json], [_extract_rows]), the history filter ([_parse_time],
    [_to_float], [_trim_history_rows]) and the two request handlers
    ([_history_days_from_query], [_handle_ice_latest],
    [_handle_ice_history], [_send_error_json]).

    Python exceptions are values of [exn]; a computation that touches the
    network or the clock is a function from a [world] to an [outcome] and
    the world after it.  Library functions the source calls but does not
    define ([urlopen], [datetime.now], [json.loads], [bytes.decode],
    [datetime.fromisoformat], [int], [float], [str], [strftime]) are the
    fields of [pylib] and [environment]; every theorem holds for all of
    them. *)

From Stdlib Require Import ZArith List String Ascii Bool Lia DecimalString Floats.
Import ListNotations.
Local Open Scope string_scope.
Local Open Scope Z_scope.
Set Warnings "-register-all".

(** ** Text *)

Definition bytes := list Byte.byte.

(** [str(n)] for a Python int. *)
Definition str_of_int (n : Z) : string := NilZero.string_of_int (Z.to_int n).

(** [sub in s]. *)
Fixpoint str_contains (sub s : string) : bool :=
  String.prefix sub s ||
  match s with
  | EmptyString => false
  | String _ rest => str_contains sub rest
  end.

(** [s.split(sep)] for a one-character separator: the pieces between the
    separators, always at least one piece. *)
Fixpoint split_on (sep : ascii) (s : string) : list string :=
  match s with
  | EmptyString => [EmptyString]
  | String c rest =>
      if Ascii.eqb c sep then EmptyString :: split_on sep rest
      else match split_on sep rest with
           | piece :: pieces => String c piece :: pieces
           | [] => [String c EmptyString]
           end
  end.

(** [s.split(sep, 1)]: the text before the first separator and, when there
    is a separator, the text after it. *)
Fixpoint split_once (sep : ascii) (s : string) : list string :=
  match s with
  | EmptyString => [EmptyString]
  | String c rest =>
      if Ascii.eqb c sep then [EmptyString; rest]
      else match split_once sep rest with
           | piece :: pieces => String c piece :: pieces
           | [] => [String c EmptyString]
           end
  end.

(** [sep in s] for a one-character [sep]. *)
Fixpoint has_char (sep : ascii) (s : string) : bool :=
  match s with
  | EmptyString => false
  | String c rest => Ascii.eqb c sep || has_char sep rest
  end.

(** [s.replace("Z", "+00:00")]. *)
Fixpoint replace_Z (s : string) : string :=
  match s with
  | EmptyString => EmptyString
  | String c rest =>
      if Ascii.eqb c "Z"%char then "+00:00" ++ replace_Z rest
      else String c (replace_Z rest)
  end.

(** ** Exceptions *)

(** The exception classes the source names, the ones its own operations can
    raise, and [OtherException] for every class unrelated to them (for
    instance [http.client.RemoteDisconnected], which [urlopen] lets
    through). *)
Inductive exc_class : Type :=
| SSLError
| SSLCertVerificationError
| URLError
| HTTPError
| TimeoutError
| RuntimeError
| JSONDecodeError
| UnicodeDecodeError
| ValueError
| TypeError
| AttributeError
| OverflowError
| OtherException (name : string).

Definition exc_class_eqb (a b : exc_class) : bool :=
  match a, b with
  | SSLError, SSLError
  | SSLCertVerificationError, SSLCertVerificationError
  | URLError, URLError
  | HTTPError, HTTPError
  | TimeoutError, TimeoutError
  | RuntimeError, RuntimeError
  | JSONDecodeError, JSONDecodeError
  | UnicodeDecodeError, UnicodeDecodeError
  | ValueError, ValueError
  | TypeError, TypeError
  | AttributeError, AttributeError
  | OverflowError, OverflowError => true
  | OtherException n, OtherException m => String.eqb n m
  | _, _ => false
  end.

(** [issubclass(c, base)] on the classes above: [SSLCertVerificationError]
    derives from [SSLError] and [ValueError], [HTTPError] from [URLError],
    [JSONDecodeError] and [UnicodeDecodeError] from [ValueError]. *)
Definition issubclass (c base : exc_class) : bool :=
  exc_class_eqb c base ||
  match base, c with
  | SSLError, SSLCertVerificationError
  | URLError, HTTPError
  | ValueError, (SSLCertVerificationError | JSONDecodeError | UnicodeDecodeError) => true
  | _, _ => false
  end.

(** An exception object: its class, the class of its [reason] attribute
    when that attribute is itself an exception, and [str(exc)]. *)
Record exn : Type := mkExn {
  exc_cls : exc_class;
  exc_reason : option exc_class;
  exc_str : string
}.

Definition new_exn (c : exc_class) (msg : string) : exn := mkExn c None msg.

(** [isinstance(exc, (c1, ..., cn))]. *)
Definition isinstance (exc : exn) (classes : list exc_class) : bool :=
  existsb (issubclass (exc_cls exc)) classes.

Definition reason_isinstance (exc : exn) (classes : list exc_class) : bool :=
  match exc_reason exc with
  | Some c => existsb (issubclass c) classes
  | None => false
  end.

Inductive outcome (A : Type) : Type :=
| Ok (a : A)
| Raise (e : exn).
Arguments Ok {A} a.
Arguments Raise {A} e.

(** ** The world: network and clock *)

Inductive tls_context : Type := StrictContext | UnverifiedContext.

(** One [urlopen(request, timeout=..., context=...)] call. *)
Record call : Type := mkCall {
  call_url : string;
  call_user_agent : string;
  call_timeout : Z;
  call_context : tls_context
}.

(** What [urlopen] hands back once [response.read()] is done: the body and
    the [status] attribute, when it has one. *)
Record response : Type := mkResponse {
  resp_status : option Z;
  resp_body : bytes
}.

(** The calls made so far, oldest first, and how often the clock was read. *)
Record world : Type := mkWorld {
  net_log : list call;
  ticks : nat
}.

Definition initial_world : world := mkWorld [] 0.

(** The outside: what the network answers to a call in a given world, and
    what the n-th reading of [datetime.now(timezone.utc)] shows, in
    microseconds. *)
Record environment : Type := mkEnvironment {
  urlopen : world -> call -> outcome response;
  clock : nat -> Z
}.

(** ** Computations *)

Definition M (A : Type) : Type := world -> outcome A * world.

Definition ret {A} (a : A) : M A := fun w => (Ok a, w).

Definition raise {A} (e : exn) : M A := fun w => (Raise e, w).

Definition bind {A B} (m : M A) (k : A -> M B) : M B :=
  fun w =>
    match m w with
    | (Ok a, w') => k a w'
    | (Raise e, w') => (Raise e, w')
    end.

(** [try: m  except classes as exc: handler exc]. *)
Definition try_except {A} (m : M A) (classes : list exc_class) (handler : exn -> M A) : M A :=
  fun w =>
    match m w with
    | (Ok a, w') => (Ok a, w')
    | (Raise e, w') => if isinstance e classes then handler e w' else (Raise e, w')
    end.

Definition lift {A} (o : outcome A) : M A := fun w => (o, w).

Declare Scope py_scope.
Delimit Scope py_scope with py.
Notation "x <- m ;; k" := (bind m (fun x => k))
  (at level 61, m at next level, right associativity) : py_scope.
Notation "' pat <- m ;; k" := (bind m (fun x => match x with pat => k end))
  (at level 61, pat pattern, m at next level, right associativity) : py_scope.
Local Open Scope py_scope.

(** ** Constants *)

Definition NOAA_BASE_ENDPOINT : string :=
  "https://apps.glerl.noaa.gov/erddap/tabledap/" ++
  "glerlIce.json?time,Superior,Michigan,Huron,Erie,Ontario,GL_Total".

Definition NOAA_LATEST_ENDPOINTS : list string :=
  [ NOAA_BASE_ENDPOINT ++ "&orderByMax(%22time%22)";
    NOAA_BASE_ENDPOINT ].

Definition CERT_MARKER : string := "CERTIFICATE_VERIFY_FAILED".

(** ** Secure fetcher *)

Definition _is_certificate_error (exc : exn) : bool :=
  if isinstance exc [SSLError; SSLCertVerificationError] then true
  else if reason_isinstance exc [SSLError; SSLCertVerificationError] then true
  else if str_contains CERT_MARKER (exc_str exc) then true
  else false.

Definition make_request (endpoint : string) (context : tls_context) : call :=
  mkCall endpoint "GreatLakesIceWatch/1.0" 14 context.

(** The classes the [except] clause of [_fetch_url] names. *)
Definition FETCH_CAUGHT : list exc_class :=
  [SSLError; SSLCertVerificationError; URLError].

(** [getattr(response, "status", 200)]. *)
Definition status_of (r : response) : Z :=
  match resp_status r with
  | Some s => s
  | None => 200
  end.

(** The world once [c] has been sent. *)
Definition sent (c : call) (w : world) : world :=
  mkWorld (net_log w ++ [c]) (ticks w).

Section Fetcher.

Variable env : environment.

(** [with urlopen(request, timeout=14, context=context) as response:
       payload = response.read(); status = getattr(response, "status", 200)]. *)
Definition open_and_read (endpoint : string) (context : tls_context) : M (bytes * Z) :=
  fun w =>
    let c := make_request endpoint context in
    match urlopen env w c with
    | Ok r => (Ok (resp_body r, status_of r), sent c w)
    | Raise e => (Raise e, sent c w)
    end.

(** Lines 59-64 of [_fetch_url]: the checks on status and body. *)
Definition check_response (payload : bytes) (status : Z) : outcome bytes :=
  if negb ((200 <=? status) && (status <? 300)) then
    Raise (new_exn RuntimeError ("HTTP " ++ str_of_int status))
  else match payload with
       | [] => Raise (new_exn RuntimeError "Empty response body")
       | _ :: _ => Ok payload
       end.

Definition _fetch_url (endpoint : string) : M bytes :=
  '(payload, status) <-
     try_except (open_and_read endpoint StrictContext) FETCH_CAUGHT
       (fun exc =>
          if negb (_is_certificate_error exc) then raise exc
          else open_and_read endpoint UnverifiedContext) ;;
  lift (check_response payload status).

End Fetcher.

(** ** JSON values and the Python library *)

(** What [json.loads] produces: [None], [bool], [int], [float], [str],
    [list] and [dict] with string keys (each key once, as in a Python
    dict). *)
Inductive json : Type :=
| JNull
| JBool (b : bool)
| JInt (n : Z)
| JFloat (f : float)
| JStr (s : string)
| JList (items : list json)
| JDict (fields : list (string * json)).

(** A decoded row: a Python dict in insertion order whose keys are the
    column names as the envelope gives them. *)
Definition record : Type := list (json * json).

(** A [datetime]: naive, or aware and normalised to UTC; microseconds. *)
Inductive datetime : Type :=
| Naive (us : Z)
| Aware (us : Z).

(** Library functions the source calls.  [None] stands for the
    [ValueError] of [int], [float] and [fromisoformat], and for the
    [OverflowError] of [float] on an int; [inr msg] for the
    [UnicodeDecodeError] and [JSONDecodeError] with that message. *)
Record pylib : Type := mkPylib {
  int_of_str : string -> option Z;
  float_of_str : string -> option float;
  float_of_int : Z -> option float;
  repr : json -> string;
  decode_utf8 : bytes -> string + string;
  json_loads : string -> json + string;
  fromisoformat : string -> option datetime;
  strftime : string -> Z -> string;
  scalar_eqb : json -> json -> bool
}.

Definition type_name (v : json) : string :=
  match v with
  | JNull => "NoneType"
  | JBool _ => "bool"
  | JInt _ => "int"
  | JFloat _ => "float"
  | JStr _ => "str"
  | JList _ => "list"
  | JDict _ => "dict"
  end.

(** [d.get(key)] on a dict with string keys. *)
Fixpoint dict_get (fields : list (string * json)) (key : string) : option json :=
  match fields with
  | [] => None
  | (k, v) :: rest => if String.eqb k key then Some v else dict_get rest key
  end.

Definition obind {A B} (o : outcome A) (k : A -> outcome B) : outcome B :=
  match o with
  | Ok a => k a
  | Raise e => Raise e
  end.

Definition DAY : Z := 86400 * 1000000.

(** [a >= b] on datetimes. *)
Definition datetime_ge (a b : datetime) : outcome bool :=
  match a, b with
  | Aware x, Aware y => Ok (y <=? x)
  | Naive x, Naive y => Ok (y <=? x)
  | _, _ => Raise (new_exn TypeError "can't compare offset-naive and offset-aware datetimes")
  end.

Definition LAKE_FIELDS : list string :=
  ["Superior"; "Michigan"; "Huron"; "Erie"; "Ontario"; "GL_Total"].

Section Pipeline.

Variable lib : pylib.
Variable env : environment.

(** [str(value)]. *)
Definition py_str (v : json) : string :=
  match v with
  | JStr s => s
  | JNull => "None"
  | JBool true => "True"
  | JBool false => "False"
  | JInt n => str_of_int n
  | _ => repr lib v
  end.

(** *** Rows as dicts *)

Definition hashable (k : json) : bool :=
  match k with
  | JList _ | JDict _ => false
  | _ => true
  end.

(** Equality of two dict keys: strings by their text, a string never equal
    to anything else, the other scalars by Python's [==]. *)
Definition key_eqb (a b : json) : bool :=
  match a, b with
  | JStr s, JStr t => String.eqb s t
  | JStr _, _ | _, JStr _ => false
  | _, _ => scalar_eqb lib a b
  end.

Fixpoint dict_set (d : record) (k v : json) : record :=
  match d with
  | [] => [(k, v)]
  | (k', v') :: rest =>
      if key_eqb k' k then (k', v) :: rest else (k', v') :: dict_set rest k v
  end.

(** [d[k] = v] while a dict is built. *)
Definition setitem (d : record) (k v : json) : outcome record :=
  if hashable k then Ok (dict_set d k v)
  else Raise (new_exn TypeError ("unhashable type: '" ++ type_name k ++ "'")).

(** [row.get(key)] for a string [key]. *)
Fixpoint record_get (row : record) (key : string) : option json :=
  match row with
  | [] => None
  | (k, v) :: rest => if key_eqb k (JStr key) then Some v else record_get rest key
  end.

Definition enumerate {A} (l : list A) : list (nat * A) :=
  combine (seq 0 (List.length l)) l.

(** [{name: raw_row[index] for index, name in enumerate(column_names)
      if index < len(raw_row)}]. *)
Definition row_of (column_names raw_row : list json) : outcome record :=
  fold_left
    (fun acc '(index, name) =>
       obind acc (fun d =>
         if (index <? List.length raw_row)%nat
         then setitem d name (nth index raw_row JNull)
         else Ok d))
    (enumerate column_names) (Ok []).

Fixpoint extract_loop (column_names rows : list json) (parsed_rows : list record)
  : outcome (list record) :=
  match rows with
  | [] => Ok parsed_rows
  | JList raw_row :: rest =>
      obind (row_of column_names raw_row)
        (fun row => extract_loop column_names rest (parsed_rows ++ [row]))
  | _ :: rest => extract_loop column_names rest parsed_rows
  end.

Definition get_or_none (fields : list (string * json)) (key : string) : json :=
  match dict_get fields key with
  | Some v => v
  | None => JNull
  end.

Definition _extract_rows (payload : json) : outcome (list record) :=
  match payload with
  | JDict fields =>
      match get_or_none fields "table" with
      | JDict table =>
          match get_or_none table "columnNames", get_or_none table "rows" with
          | JList column_names, JList rows => extract_loop column_names rows []
          | _, _ => Ok []
          end
      | _ => Ok []
      end
  | _ => Raise (new_exn AttributeError
                  ("'" ++ type_name payload ++ "' object has no attribute 'get'"))
  end.

(** *** Decoding *)

(** Lines 69-70 of [_fetch_json]: [json.loads(payload.decode("utf-8"))]. *)
Definition loads_utf8 (payload : bytes) : outcome json :=
  match decode_utf8 lib payload with
  | inr msg => Raise (new_exn UnicodeDecodeError msg)
  | inl decoded =>
      match json_loads lib decoded with
      | inl value => Ok value
      | inr msg => Raise (new_exn JSONDecodeError msg)
      end
  end.

Definition _fetch_json (endpoint : string) : M json :=
  payload <- _fetch_url env endpoint ;;
  lift (loads_utf8 payload).

(** *** History filter *)

Definition _parse_time (value : string) : option datetime :=
  fromisoformat lib (replace_Z value).

Definition _to_float (value : json) : outcome (option float) :=
  match value with
  | JInt n =>
      match float_of_int lib n with
      | Some f => Ok (Some f)
      | None => Raise (new_exn OverflowError "int too large to convert to float")
      end
  | JBool b => Ok (Some (if b then 1%float else 0%float))
  | JFloat f => Ok (Some f)
  | _ => Ok (float_of_str lib (py_str value))
  end.

Definition json_of_float (o : option float) : json :=
  match o with
  | Some f => JFloat f
  | None => JNull
  end.

Definition row_get_or_none (row : record) (key : string) : json :=
  match record_get row key with
  | Some v => v
  | None => JNull
  end.

(** The six numeric entries of the dict literal, evaluated in order. *)
Fixpoint lake_entries (row : record) (names : list string) : outcome (list (string * json)) :=
  match names with
  | [] => Ok []
  | name :: rest =>
      obind (_to_float (row_get_or_none row name)) (fun x =>
      obind (lake_entries row rest) (fun entries =>
      Ok ((name, json_of_float x) :: entries)))
  end.

Definition history_point (time_text : string) (row : record) : outcome json :=
  obind (lake_entries row LAKE_FIELDS) (fun entries =>
  Ok (JDict (("time", JStr time_text) :: entries))).

(** [str(row.get("time", ""))]. *)
Definition time_text_of (row : record) : string :=
  py_str (match record_get row "time" with
          | Some v => v
          | None => JStr ""
          end).

Fixpoint trim_loop (cutoff : datetime) (rows : list record) (trimmed : list json)
  : outcome (list json) :=
  match rows with
  | [] => Ok trimmed
  | row :: rest =>
      let time_text := time_text_of row in
      match _parse_time time_text with
      | None => trim_loop cutoff rest trimmed
      | Some stamp =>
          obind (datetime_ge stamp cutoff) (fun keep =>
            if keep then
              obind (history_point time_text row) (fun point =>
                trim_loop cutoff rest (trimmed ++ [point]))
            else trim_loop cutoff rest trimmed)
      end
  end.

(** [datetime.now(timezone.utc)]. *)
Definition utcnow : M Z :=
  fun w => (Ok (clock env (ticks w)), mkWorld (net_log w) (S (ticks w))).

Definition _trim_history_rows (rows : list record) (days : Z) : M (list json) :=
  match rows with
  | [] => ret []
  | _ :: _ =>
      now <- utcnow ;;
      lift (trim_loop (Aware (now - days * DAY)) rows [])
  end.

Definition _history_endpoint (days : Z) : M string :=
  now <- utcnow ;;
  ret (NOAA_BASE_ENDPOINT ++ "&time%3E=" ++
       strftime lib "%Y-%m-%dT00:00:00Z" (now - (days + 7) * DAY)).

(** *** Request handlers *)

Definition query_of (path : string) : string :=
  if has_char "?"%char path then nth 1 (split_once "?"%char path) "" else "".

Fixpoint days_loop (pairs : list string) (days : Z) : Z :=
  match pairs with
  | [] => days
  | param :: rest =>
      if negb (String.prefix "days=" param) then days_loop rest days
      else match int_of_str lib (nth 1 (split_once "="%char param) "") with
           | Some n => n
           | None => 90
           end
  end.

Definition _history_days_from_query (path : string) : Z :=
  let days := days_loop (split_on "&"%char (query_of path)) 90 in
  Z.max 14 (Z.min 365 days).

(** The body written to the client: bytes as they are, or
    [json.dumps(value).encode("utf-8")]. *)
Inductive http_body : Type :=
| RawBody (payload : bytes)
| JsonBody (value : json).

Record http_response : Type := mkHttpResponse {
  http_status : Z;
  http_headers : list (string * string);
  http_body_of : http_body
}.

Definition JSON_HEADERS : list (string * string) :=
  [("Content-Type", "application/json; charset=utf-8"); ("Cache-Control", "no-store")].

Definition ERROR_TEXT : string := "Unable to fetch NOAA data.".

Definition error_report (errors : list string) : json :=
  JDict [("error", JStr ERROR_TEXT); ("details", JList (map JStr errors))].

Definition _send_error_json (errors : list string) : http_response :=
  mkHttpResponse 502 JSON_HEADERS (JsonBody (error_report errors)).

(** The classes both handlers catch. *)
Definition CAUGHT : list exc_class :=
  [HTTPError; URLError; TimeoutError; RuntimeError; SSLError; JSONDecodeError].

(** [f"{endpoint}: {exc}"]. *)
Definition detail (endpoint : string) (exc : exn) : string :=
  endpoint ++ ": " ++ exc_str exc.

(** The body of the [try] in [_handle_ice_latest]. *)
Definition latest_attempt (endpoint : string) : M http_response :=
  payload <- _fetch_url env endpoint ;;
  ret (mkHttpResponse 200 JSON_HEADERS (RawBody payload)).

Fixpoint latest_loop (endpoints : list string) (errors : list string) : M http_response :=
  match endpoints with
  | [] => ret (_send_error_json errors)
  | endpoint :: rest =>
      try_except (latest_attempt endpoint) CAUGHT
        (fun exc => latest_loop rest (errors ++ [detail endpoint exc]))
  end.

Definition _handle_ice_latest : M http_response :=
  latest_loop NOAA_LATEST_ENDPOINTS [].

Definition history_response (generated_at : string) (days : Z) (rows : list json) : json :=
  JDict [("generated_at", JStr generated_at); ("days", JInt days); ("rows", JList rows)].

(** The body of the [try] in [_handle_ice_history]. *)
Definition history_attempt (days : Z) (endpoint : string) : M http_response :=
  payload <- _fetch_json endpoint ;;
  rows <- lift (_extract_rows payload) ;;
  match rows with
  | [] => raise (new_exn RuntimeError "No rows returned")
  | _ :: _ =>
      trimmed <- _trim_history_rows rows days ;;
      match trimmed with
      | [] => raise (new_exn RuntimeError "No rows in requested date range")
      | _ :: _ =>
          now <- utcnow ;;
          ret (mkHttpResponse 200 JSON_HEADERS
                 (JsonBody (history_response (strftime lib "%Y-%m-%dT%H:%M:%SZ" now)
                              days trimmed)))
      end
  end.

Fixpoint history_loop (days : Z) (endpoints : list string) (errors : list string)
  : M http_response :=
  match endpoints with
  | [] => ret (_send_error_json errors)
  | endpoint :: rest =>
      try_except (history_attempt days endpoint) CAUGHT
        (fun exc => history_loop days rest (errors ++ [detail endpoint exc]))
  end.

Definition _handle_ice_history (path : string) : M http_response :=
  let days := _history_days_from_query path in
  first <- _history_endpoint days ;;
  history_loop days [first; NOAA_BASE_ENDPOINT] [].

End Pipeline.

(** ** Routing *)

(** What [do_GET] does with a request: it answers through one of the two
    handlers, or hands the request, as it is, to
    [SimpleHTTPRequestHandler.do_GET]. *)
Inductive get_result : Type :=
| Answered (resp : http_response)
| Delegated (path : string).

Definition do_GET (lib : pylib) (env : environment) (self_path : string) : M get_result :=
  let path := nth 0 (split_once "?"%char self_path) "" in
  if String.eqb path "/api/ice-latest" then
    resp <- _handle_ice_latest env ;; ret (Answered resp)
  else if String.eqb path "/api/ice-history" then
    resp <- _handle_ice_history lib env self_path ;; ret (Answered resp)
  else ret (Delegated self_path).

(** ** Vocabulary of the further properties *)

(** [sep.join(pieces)] for a one-character separator. *)
Fixpoint join_on (sep : ascii) (pieces : list string) : string :=
  match pieces with
  | [] => EmptyString
  | [piece] => piece
  | piece :: rest => piece ++ String sep (join_on sep rest)
  end.

(** The calls of one [_fetch_url]: the strict one and, when [retried], the
    unverified one after it. *)
Definition calls_of (fetch : string * bool) : list call :=
  make_request (fst fetch) StrictContext ::
  (if snd fetch then [make_request (fst fetch) UnverifiedContext] else []).

(** One step of the dict comprehension of [_extract_rows]: [d[name] = v]
    unless an earlier step has raised. *)
Definition add_entry (lib : pylib) (acc : outcome record) (entry : json * json)
  : outcome record :=
  let '(name, v) := entry in obind acc (fun d => setitem lib d name v).

(** A value [json.dumps] writes as a number or as [null]. *)
Definition float_or_null (v : json) : bool :=
  match v with
  | JFloat _ | JNull => true
  | _ => false
  end.

(** A history point: [time] with a text, then the six lakes in order, each
    a float or null. *)
Definition is_history_point (v : json) : Prop :=
  exists time_text entries,
    v = JDict (("time", JStr time_text) :: entries)
    /\ map fst entries = LAKE_FIELDS
    /\ Forall (fun entry => float_or_null (snd entry) = true) entries.



(** ** A library and a network to run the model on

    [Reference.lib] computes what CPython computes on the inputs the
    examples below use: [int] and [float] on plain decimal numerals,
    [float] of an int by IEEE rounding with [OverflowError] beyond the
    double range, [bytes.decode] on ASCII text and on bytes that no UTF-8
    text contains, [fromisoformat] on [YYYY-MM-DDTHH:MM:SS] with or without
    a [+HH:MM] offset, [strftime] with the directives the source uses, and
    [json.loads] from a table of documents.  The theorems do not depend on
    it. *)
Module Reference.

Definition digit_of (c : ascii) : option Z :=
  let n := Z.of_nat (nat_of_ascii c) in
  if (48 <=? n) && (n <=? 57) then Some (n - 48) else None.

Fixpoint digits_value (s : string) (acc : Z) : option Z :=
  match s with
  | EmptyString => Some acc
  | String c rest =>
      match digit_of c with
      | Some d => digits_value rest (10 * acc + d)
      | None => None
      end
  end.

Definition numeral (s : string) : option Z :=
  match s with
  | EmptyString => None
  | _ => digits_value s 0
  end.

Definition int_of_str (s : string) : option Z :=
  match s with
  | String "-" rest => option_map Z.opp (numeral rest)
  | String "+" rest => numeral rest
  | _ => numeral s
  end.

(** The double nearest to an integer, infinite beyond the range. *)
Definition nearest_float (n : Z) : float :=
  SF2Prim (SpecFloat.binary_normalize prec emax n 0 false).

Definition float_of_int (n : Z) : option float :=
  if PrimFloat.is_infinity (nearest_float n) then None else Some (nearest_float n).

Definition float_of_str (s : string) : option float :=
  match s with
  | String "-" rest => option_map (fun n => PrimFloat.opp (nearest_float n)) (numeral rest)
  | String "+" rest => option_map nearest_float (numeral rest)
  | _ => option_map nearest_float (numeral s)
  end.

Definition repr (v : json) : string := "<" ++ type_name v ++ ">".

Definition is_ascii (b : Byte.byte) : bool := (Byte.to_nat b <? 128)%nat.

Definition decode_utf8 (payload : bytes) : string + string :=
  if forallb is_ascii payload then inl (string_of_list_byte payload)
  else inr "'utf-8' codec can't decode bytes".

Definition json_loads (documents : list (string * json)) (text : string) : json + string :=
  match find (fun doc => String.eqb (fst doc) text) documents with
  | Some doc => inl (snd doc)
  | None => inr "Expecting value: line 1 column 1 (char 0)"
  end.

(** Days from 1970-01-01 to a date of the proleptic Gregorian calendar. *)
Definition days_from_civil (y m d : Z) : Z :=
  let y' := if m <=? 2 then y - 1 else y in
  let era := y' / 400 in
  let yoe := y' - era * 400 in
  let doy := (153 * (if 2 <? m then m - 3 else m + 9) + 2) / 5 + d - 1 in
  let doe := yoe * 365 + yoe / 4 - yoe / 100 + doy in
  era * 146097 + doe - 719468.

Definition civil_from_days (days : Z) : Z * Z * Z :=
  let z := days + 719468 in
  let era := z / 146097 in
  let doe := z - era * 146097 in
  let yoe := (doe - doe / 1460 + doe / 36524 - doe / 146096) / 365 in
  let doy := doe - (365 * yoe + yoe / 4 - yoe / 100) in
  let mp := (5 * doy + 2) / 153 in
  let d := doy - (153 * mp + 2) / 5 + 1 in
  let m := if mp <? 10 then mp + 3 else mp - 9 in
  ((yoe + era * 400 + (if m <=? 2 then 1 else 0), m), d).

Definition is_leap (y : Z) : bool :=
  ((y mod 4 =? 0) && negb (y mod 100 =? 0)) || (y mod 400 =? 0).

Definition days_in_month (y m : Z) : Z :=
  if m =? 2 then (if is_leap y then 29 else 28)
  else if (m =? 4) || (m =? 6) || (m =? 9) || (m =? 11) then 30 else 31.

Definition field (s : string) (start len : nat) : option Z :=
  numeral (substring start len s).

Definition char_at (s : string) (n : nat) (c : ascii) : bool :=
  match String.get n s with
  | Some c' => Ascii.eqb c' c
  | None => false
  end.

(** Seconds since 1970-01-01T00:00:00 of the local time written in the
    first nineteen characters. *)
Definition local_seconds (s : string) : option Z :=
  match field s 0 4, field s 5 2, field s 8 2, field s 11 2, field s 14 2, field s 17 2 with
  | Some y, Some m, Some d, Some hh, Some mi, Some ss =>
      if char_at s 4 "-" && char_at s 7 "-" && char_at s 10 "T"
         && char_at s 13 ":" && char_at s 16 ":"
         && (1 <=? y) && (1 <=? m) && (m <=? 12) && (1 <=? d) && (d <=? days_in_month y m)
         && (hh <? 24) && (mi <? 60) && (ss <? 60)
      then Some (days_from_civil y m d * 86400 + hh * 3600 + mi * 60 + ss)
      else None
  | _, _, _, _, _, _ => None
  end.

Definition offset_seconds (s : string) : option Z :=
  match field s 20 2, field s 23 2 with
  | Some hh, Some mi =>
      if char_at s 22 ":" && (hh <? 24) && (mi <? 60) then
        if char_at s 19 "+" then Some (hh * 3600 + mi * 60)
        else if char_at s 19 "-" then Some (- (hh * 3600 + mi * 60))
        else None
      else None
  | _, _ => None
  end.

Definition fromisoformat (s : string) : option datetime :=
  match String.length s with
  | 19%nat => option_map (fun t => Naive (t * 1000000)) (local_seconds s)
  | 25%nat =>
      match local_seconds s, offset_seconds s with
      | Some t, Some off => Some (Aware ((t - off) * 1000000))
      | _, _ => None
      end
  | _ => None
  end.

Definition two_digits (n : Z) : string :=
  if n <? 10 then "0" ++ str_of_int n else str_of_int n.

Definition four_digits (n : Z) : string :=
  if n <? 10 then "000" ++ str_of_int n
  else if n <? 100 then "00" ++ str_of_int n
  else if n <? 1000 then "0" ++ str_of_int n
  else str_of_int n.

Fixpoint format_time (fmt : string) (y m d hh mi ss : Z) : string :=
  match fmt with
  | EmptyString => EmptyString
  | String "%" (String c rest) =>
      (if Ascii.eqb c "Y" then four_digits y
       else if Ascii.eqb c "m" then two_digits m
       else if Ascii.eqb c "d" then two_digits d
       else if Ascii.eqb c "H" then two_digits hh
       else if Ascii.eqb c "M" then two_digits mi
       else if Ascii.eqb c "S" then two_digits ss
       else String "%" (String c EmptyString))
      ++ format_time rest y m d hh mi ss
  | String c rest => String c (format_time rest y m d hh mi ss)
  end.

Definition strftime (fmt : string) (us : Z) : string :=
  let secs := us / 1000000 in
  let '(y, m, d) := civil_from_days (secs / 86400) in
  let tod := secs mod 86400 in
  format_time fmt y m d (tod / 3600) (tod mod 3600 / 60) (tod mod 60).

Definition scalar_number (v : json) : option float :=
  match v with
  | JBool b => Some (if b then 1%float else 0%float)
  | JInt n => float_of_int n
  | JFloat f => Some f
  | _ => None
  end.

Definition scalar_eqb (a b : json) : bool :=
  match a, b with
  | JNull, JNull => true
  | JInt n, JInt m => n =? m
  | _, _ =>
      match scalar_number a, scalar_number b with
      | Some x, Some y => PrimFloat.eqb x y
      | _, _ => false
      end
  end.

Definition lib (documents : list (string * json)) : pylib :=
  mkPylib int_of_str float_of_str float_of_int repr decode_utf8
    (json_loads documents) fromisoformat strftime scalar_eqb.

(** A network that gives its n-th caller the n-th answer of a script, and
    a clock that shows the n-th of a list of times. *)
Definition env (answers : list (outcome response)) (times : list Z) : environment :=
  mkEnvironment
    (fun w _ => nth (List.length (net_log w)) answers
                  (Raise (mkExn URLError None "<urlopen error timed out>")))
    (fun n => nth n times 0).

Definition ascii_bytes (s : string) : bytes := list_byte_of_string s.

End Reference.

(** ** Runs of the endpoint loops *)

(** [all_failed attempt w endpoints details w']: starting in [w], every
    endpoint of the list, tried in order, raised an exception of a class
    the handlers catch; [details] are the entries recorded and [w'] is the
    world after the last one. *)
Inductive all_failed {A} (attempt : string -> M A)
  : world -> list string -> list string -> world -> Prop :=
| all_failed_nil w : all_failed attempt w [] [] w
| all_failed_cons w endpoint exc w1 rest details w2 :
    attempt endpoint w = (Raise exc, w1) ->
    isinstance exc CAUGHT = true ->
    all_failed attempt w1 rest details w2 ->
    all_failed attempt w (endpoint :: rest) (detail endpoint exc :: details) w2.

(** ** The days parameter, in the words of the specification *)

(** The text after the first [n] characters: [s[n:]]. *)
Fixpoint skip (n : nat) (s : string) : string :=
  match n, s with
  | O, _ => s
  | S n', String _ rest => skip n' rest
  | S _, EmptyString => EmptyString
  end.

(** The value text of the first query parameter that starts with [days=]. *)
Definition first_days_parameter (path : string) : option string :=
  option_map (skip 5) (find (String.prefix "days=") (split_on "&"%char (query_of path))).

(** [x] brought into the closed range from [lo] to [hi]. *)
Definition clamp (lo hi x : Z) : Z :=
  if x <? lo then lo else if hi <? x then hi else x.

(** The integer value of that parameter, 90 when there is none or its text
    is not an integer, clamped into [14, 365]. *)
Definition effective_days (lib : pylib) (path : string) : Z :=
  clamp 14 365
    match first_days_parameter path with
    | Some text =>
        match int_of_str lib text with
        | Some n => n
        | None => 90
        end
    | None => 90
    end.

(** ** Rows, in the words of the specification *)

(** The entries of [rows] that are themselves lists, in order. *)
Fixpoint list_rows (rows : list json) : list (list json) :=
  match rows with
  | [] => []
  | JList raw_row :: rest => raw_row :: list_rows rest
  | _ :: rest => list_rows rest
  end.




(** ** Decoding and filtering, in the words of the specification *)

(** The decoder: bytes to records. *)
Definition decode (lib : pylib) (payload : bytes) : outcome (list record) :=
  obind (loads_utf8 lib payload) (_extract_rows lib).

(** Decoding, then filtering with [days]. *)
Definition decode_then_filter (lib : pylib) (env : environment) (payload : bytes) (days : Z)
  : M (list json) :=
  rows <- lift (decode lib payload) ;;
  _trim_history_rows lib env rows days.

(** The record's time parses to an instant at or after [cutoff]. *)
Definition in_window (lib : pylib) (cutoff : Z) (row : record) : bool :=
  match _parse_time lib (time_text_of lib row) with
  | Some (Aware t) => cutoff <=? t
  | _ => false
  end.

(** ** Inputs for the examples *)
Module Examples.

(** A network that answers every call the same way; the clock stands at
    [now]. *)
Definition always (answer : outcome response) (now : Z) : environment :=
  mkEnvironment (fun _ _ => answer) (fun _ => now).

(** Text with every apostrophe turned into a double quote. *)
Fixpoint quoted (s : string) : string :=
  match s with
  | EmptyString => EmptyString
  | String c rest =>
      String (if Ascii.eqb c "'"%char then ascii_of_nat 34 else c) (quoted rest)
  end.

(** An envelope with an extra column, a row before the window, a short
    row, a row that is no list and a row whose time is no timestamp. *)
Definition envelope_text : string :=
  quoted ("{'table': {'columnNames': ['time', 'Superior', 'Michigan', 'Huron', 'Erie', " ++
          "'Ontario', 'GL_Total', 'note'], 'rows': [" ++
          "['2024-01-01T00:00:00Z', 12, 8, 9, 3, 1, 7, 'old'], " ++
          "['2024-03-01T00:00:00Z', 30, '25', null, 10, true, 'n/a', 'kept'], " ++
          "'junk', " ++
          "['yesterday', 1, 2, 3, 4, 5, 6, 'no timestamp'], " ++
          "['2024-03-02T06:30:00+02:00', 31]]}}").

Definition column_names : list json :=
  map JStr ["time"; "Superior"; "Michigan"; "Huron"; "Erie"; "Ontario"; "GL_Total"; "note"].

Definition raw_rows : list json :=
  [ JList [JStr "2024-01-01T00:00:00Z"; JInt 12; JInt 8; JInt 9; JInt 3; JInt 1; JInt 7;
           JStr "old"];
    JList [JStr "2024-03-01T00:00:00Z"; JInt 30; JStr "25"; JNull; JInt 10; JBool true;
           JStr "n/a"; JStr "kept"];
    JStr "junk";
    JList [JStr "yesterday"; JInt 1; JInt 2; JInt 3; JInt 4; JInt 5; JInt 6;
           JStr "no timestamp"];
    JList [JStr "2024-03-02T06:30:00+02:00"; JInt 31] ].

Definition envelope : json :=
  JDict [("table", JDict [("columnNames", JList column_names); ("rows", JList raw_rows)])].

(** An envelope whose only row has a time without offset. *)
Definition naive_text : string :=
  quoted "{'table': {'columnNames': ['time', 'Superior'], 'rows': [['2024-03-05T00:00:00', 4]]}}".

Definition naive_row : record :=
  [(JStr "time", JStr "2024-03-05T00:00:00"); (JStr "Superior", JInt 4)].

Definition naive_envelope : json :=
  JDict [("table", JDict [("columnNames", JList [JStr "time"; JStr "Superior"]);
                          ("rows", JList [JList [JStr "2024-03-05T00:00:00"; JInt 4]])])].

(** An envelope whose only row has an integer of 401 digits. *)
Definition huge : Z := 10 ^ 400.

Definition huge_text : string :=
  quoted "{'table': {'columnNames': ['time', 'Superior'], 'rows': [['2024-03-05T00:00:00Z', "
  ++ str_of_int huge ++ "]]}}".

Definition huge_row : record :=
  [(JStr "time", JStr "2024-03-05T00:00:00Z"); (JStr "Superior", JInt huge)].

Definition huge_envelope : json :=
  JDict [("table", JDict [("columnNames", JList [JStr "time"; JStr "Superior"]);
                          ("rows", JList [JList [JStr "2024-03-05T00:00:00Z"; JInt huge]])])].

Definition lib : pylib :=
  Reference.lib [(envelope_text, envelope); (naive_text, naive_envelope);
                 (huge_text, huge_envelope)].

(** 2024-03-10T12:00:00Z and one day later, in microseconds. *)
Definition noon : Z := 1710072000 * 1000000.
Definition next_noon : Z := noon + DAY.

(** An upstream that answers every request with status 200 and the same
    body; the clock stands at [noon]. *)
Definition serving_body (payload : bytes) : environment :=
  always (Ok (mkResponse (Some 200) payload)) noon.

(** An upstream that serves the envelope to every request. *)
Definition serving : environment := serving_body (Reference.ascii_bytes envelope_text).

(** The envelope again, with a clock that moves five days between two
    readings. *)
Definition moving_clock : environment :=
  mkEnvironment (fun _ _ => Ok (mkResponse (Some 200) (Reference.ascii_bytes envelope_text)))
                (fun n => noon + Z.of_nat n * (5 * DAY)).

(** A body that is not UTF-8 text. *)
Definition not_utf8 : bytes := [Byte.xff; Byte.xfe].

(** A row without a usable time, and two rows in the window. *)
Definition undated_row : record :=
  [(JStr "time", JStr "yesterday"); (JStr "Superior", JInt 1)].

Definition early_row : record :=
  [(JStr "time", JStr "2024-03-01T00:00:00Z"); (JStr "Superior", JInt 30)].

Definition late_row : record :=
  [(JStr "time", JStr "2024-03-09T00:00:00Z"); (JStr "Superior", JStr "n/a")].

Definition primary : string := "https://apps.glerl.noaa.gov/erddap/tabledap/glerlIce.json?time,Superior,Michigan,Huron,Erie,Ontario,GL_Total&orderByMax(%22time%22)".

Definition fallback : string := "https://apps.glerl.noaa.gov/erddap/tabledap/glerlIce.json?time,Superior,Michigan,Huron,Erie,Ontario,GL_Total".

(** An upstream that answers every request with status 503. *)
Definition unavailable : environment :=
  always (Ok (mkResponse (Some 503) (Reference.ascii_bytes "Service Unavailable"))) 0.

(** [http.client.RemoteDisconnected], raised by [getresponse] when the
    server closes the connection; [urlopen] does not wrap it. *)
Definition remote_disconnected : exn :=
  mkExn (OtherException "http.client.RemoteDisconnected") None
        "Remote end closed connection without response".

(** [http.client.BadStatusLine] for a server whose first line is the
    certificate marker. *)
Definition bad_status_line : exn :=
  mkExn (OtherException "http.client.BadStatusLine") None "CERTIFICATE_VERIFY_FAILED".

(** A certificate failure as [urlopen] reports it: a [URLError] whose
    reason is the [SSLCertVerificationError]. *)
Definition untrusted : exn :=
  mkExn URLError (Some SSLCertVerificationError)
        "<urlopen error [SSL: CERTIFICATE_VERIFY_FAILED] certificate verify failed>".

Definition timed_out : exn := mkExn TimeoutError None "The read operation timed out".

End Examples.

(** ** Inputs for the further examples *)
Module MoreExamples.

(** An envelope with the columns and no row, and an answer that is an
    object without table. *)
Definition no_rows_text : string :=
  Examples.quoted "{'table': {'columnNames': ['time', 'Superior'], 'rows': []}}".

Definition no_rows_envelope : json :=
  JDict [("table", JDict [("columnNames", JList [JStr "time"; JStr "Superior"]);
                          ("rows", JList [])])].

Definition lib : pylib :=
  Reference.lib [(no_rows_text, no_rows_envelope); (Examples.envelope_text, Examples.envelope)].

(** An upstream that serves the envelope without rows. *)
Definition serving_no_rows : environment :=
  Examples.serving_body (Reference.ascii_bytes no_rows_text).

(** An upstream that serves the envelope of [Examples], asked more than a
    year after its last row. *)
Definition serving_late : environment :=
  Examples.always (Ok (mkResponse (Some 200) (Reference.ascii_bytes Examples.envelope_text)))
                  (Examples.noon + 400 * DAY).

End MoreExamples.

(** Case analysis on the first [match] in a hypothesis. *)
Ltac step_match H :=
  match type of H with
  | context [match ?x with _ => _ end] =>
      let E := fresh "E" in destruct x eqn:E; try discriminate H
  end.

(** * Properties *)

Example reference_time_roundtrip :
  option_map (fun t => match t with Aware us | Naive us =>
                Reference.strftime "%Y-%m-%dT%H:%M:%SZ" us end)
    (Reference.fromisoformat (replace_Z "2024-02-29T23:59:07Z"))
  = Some "2024-02-29T23:59:07Z".
Proof. vm_compute. reflexivity. Qed.

Example split_on_pairs :
  split_on "&"%char "a=1&days=5&" = ["a=1"; "days=5"; ""]
  /\ split_on "&"%char "" = [""]
  /\ split_once "="%char "days=1=2" = ["days"; "1=2"]
  /\ split_once "?"%char "/api/ice-history" = ["/api/ice-history"]
  /\ replace_Z "2024-03-01T00:00:00Z" = "2024-03-01T00:00:00+00:00"
  /\ str_contains CERT_MARKER "[SSL: CERTIFICATE_VERIFY_FAILED] certificate verify failed" = true.
Proof. repeat split; reflexivity. Qed.

Example days_of_some_queries :
  map (_history_days_from_query Examples.lib)
    ["/api/ice-history"; "/api/ice-history?"; "/api/ice-history?days=abc";
     "/api/ice-history?x=1&days=20&days=300"; "/api/ice-history?days=-5";
     "/api/ice-history?Days=20"; "/api/ice-history?days=&days=20"; "/api/ice-history?days=365"]
  = [90; 90; 90; 20; 14; 90; 90; 365].
Proof. vm_compute. reflexivity. Qed.

(** The strict attempt fails on the certificate, the retry without
    verification succeeds: two calls, and the bytes go to the client as they
    came. *)
Example latest_after_certificate_retry :
  _handle_ice_latest
    (Reference.env [Raise Examples.untrusted;
                    Ok (mkResponse (Some 200) (Reference.ascii_bytes "{}"))] [])
    initial_world
  = (Ok (mkHttpResponse 200 JSON_HEADERS (RawBody (Reference.ascii_bytes "{}"))),
     mkWorld [make_request Examples.primary StrictContext;
              make_request Examples.primary UnverifiedContext] 0).
Proof. vm_compute. reflexivity. Qed.

(** The first endpoint times out, the second answers with an empty body:
    two entries, in that order. *)
Example latest_report_in_trial_order :
  fst (_handle_ice_latest
         (Reference.env [Raise Examples.timed_out; Ok (mkResponse (Some 200) [])] [])
         initial_world)
  = Ok (mkHttpResponse 502 JSON_HEADERS
          (JsonBody (JDict
             [("error", JStr "Unable to fetch NOAA data.");
              ("details",
               JList [JStr (Examples.primary ++ ": The read operation timed out");
                      JStr (Examples.fallback ++ ": Empty response body")])]))).
Proof. vm_compute. reflexivity. Qed.

(** ** The fetcher *)

Section FetcherFacts.

Variable env : environment.



(** What [_fetch_url] does, by the outcome of its first attempt. *)
Lemma _fetch_url_cases endpoint w :
  let strict := make_request endpoint StrictContext in
  let insecure := make_request endpoint UnverifiedContext in
  _fetch_url env endpoint w =
  match urlopen env w strict with
  | Ok r => (check_response (resp_body r) (status_of r), sent strict w)
  | Raise exc =>
      if isinstance exc FETCH_CAUGHT && _is_certificate_error exc then
        (match urlopen env (sent strict w) insecure with
         | Ok r => check_response (resp_body r) (status_of r)
         | Raise again => Raise again
         end, sent insecure (sent strict w))
      else (Raise exc, sent strict w)
  end.
Proof.
  intros strict insecure.
  unfold _fetch_url, bind, try_except, open_and_read, lift, raise.
  fold strict. fold insecure.
  destruct (urlopen env w strict) as [r | exc]; [reflexivity |].
  destruct (isinstance exc FETCH_CAUGHT); simpl; [| reflexivity].
  destruct (_is_certificate_error exc); simpl; [| reflexivity].
  destruct (urlopen env (sent strict w) insecure); reflexivity.
Qed.

Lemma isinstance_ssl exc :
  isinstance exc [SSLError; SSLCertVerificationError] = issubclass (exc_cls exc) SSLError.
Proof.
  unfold isinstance. simpl. destruct (exc_cls exc); reflexivity.
Qed.

(** The three ways an error counts as a certificate error. *)
Lemma _is_certificate_error_iff exc :
  _is_certificate_error exc = true <->
  issubclass (exc_cls exc) SSLError = true
  \/ (exists c, exc_reason exc = Some c /\ issubclass c SSLError = true)
  \/ str_contains CERT_MARKER (exc_str exc) = true.
Proof.
  unfold _is_certificate_error. rewrite isinstance_ssl.
  destruct (issubclass (exc_cls exc) SSLError) eqn:Hcls; [tauto |].
  unfold reason_isinstance.
  destruct (exc_reason exc) as [c |] eqn:Hreason.
  - replace (existsb (issubclass c) [SSLError; SSLCertVerificationError])
      with (issubclass c SSLError) by (simpl; destruct c; reflexivity).
    destruct (issubclass c SSLError) eqn:Hc.
    + split; [intros _ | reflexivity]. right. left. exists c. split; [reflexivity | exact Hc].
    + destruct (str_contains CERT_MARKER (exc_str exc)); split; intros H;
        try reflexivity; try (right; right; reflexivity); try discriminate;
        destruct H as [H | [[c' [Heq Hc']] | H]]; try discriminate;
        inversion Heq; subst; congruence.
  - destruct (str_contains CERT_MARKER (exc_str exc)); split; intros H;
      try reflexivity; try (right; right; reflexivity); try discriminate;
      destruct H as [H | [[c' [Heq Hc']] | H]]; discriminate.
Qed.


End FetcherFacts.


(** C2, as the code has it.  When the first attempt fails, [_fetch_url]
    calls the same endpoint once more, with the unverified context, exactly
    when the error is of a class its [except] clause names ([SSLError],
    [SSLCertVerificationError], [URLError] and their subclasses) and
    [_is_certificate_error] holds of it: the error is an SSL error, or its
    reason is one, or its text contains the marker.  Any other failure is
    raised again after the single call; the outcome of the retry, failure
    included, is final. *)
Theorem fetch_retries_once_on_handled_certificate_error env endpoint w exc :
  let strict := make_request endpoint StrictContext in
  let insecure := make_request endpoint UnverifiedContext in
  let retried := isinstance exc FETCH_CAUGHT && _is_certificate_error exc in
  urlopen env w strict = Raise exc ->
  (net_log (snd (_fetch_url env endpoint w)) = (net_log w ++ [strict; insecure])%list
   <-> retried = true)
  /\ (retried = true ->
      _fetch_url env endpoint w
      = (match urlopen env (sent strict w) insecure with
         | Ok r => check_response (resp_body r) (status_of r)
         | Raise again => Raise again
         end, sent insecure (sent strict w)))
  /\ (retried = false -> _fetch_url env endpoint w = (Raise exc, sent strict w))
  /\ (_is_certificate_error exc = true <->
      issubclass (exc_cls exc) SSLError = true
      \/ (exists c, exc_reason exc = Some c /\ issubclass c SSLError = true)
      \/ str_contains CERT_MARKER (exc_str exc) = true).
Proof.
  intros strict insecure retried Hfirst.
  pose proof (_fetch_url_cases env endpoint w) as Hcases. cbv zeta in Hcases.
  fold strict in Hcases. fold insecure in Hcases. rewrite Hfirst in Hcases.
  fold retried in Hcases.
  split; [| split; [| split]].
  - rewrite Hcases. destruct retried; simpl.
    + rewrite <- app_assoc. simpl. split; reflexivity.
    + split; [| discriminate]. intros H. apply app_inv_head in H. discriminate.
  - intros Hr. rewrite Hcases, Hr. reflexivity.
  - intros Hr. rewrite Hcases, Hr. reflexivity.
  - apply _is_certificate_error_iff.
Qed.

Lemma fetch_retries_once_witness :
  (net_log (snd (_fetch_url (Reference.env [Raise Examples.untrusted;
                                             Raise Examples.timed_out] [])
                            Examples.primary initial_world))
   = [make_request Examples.primary StrictContext;
      make_request Examples.primary UnverifiedContext])
  /\ fst (_fetch_url (Reference.env [Raise Examples.untrusted;
                                     Raise Examples.timed_out] [])
                     Examples.primary initial_world)
     = Raise Examples.timed_out
  /\ _fetch_url (Examples.always (Raise Examples.timed_out) 0) Examples.primary initial_world
     = (Raise Examples.timed_out,
        mkWorld [make_request Examples.primary StrictContext] 0).
Proof.
  destruct (fetch_retries_once_on_handled_certificate_error
              (Reference.env [Raise Examples.untrusted; Raise Examples.timed_out] [])
              Examples.primary initial_world Examples.untrusted)
    as (Hlog & Hretry & _ & _); [reflexivity |].
  destruct (fetch_retries_once_on_handled_certificate_error
              (Examples.always (Raise Examples.timed_out) 0)
              Examples.primary initial_world Examples.timed_out)
    as (_ & _ & Hplain & _); [reflexivity |].
  split; [apply Hlog; reflexivity |].
  split; [rewrite Hretry by reflexivity; reflexivity |].
  apply Hplain. reflexivity.
Defined.

(** An error that [_is_certificate_error] classifies as a certificate
    error, of a class the [except] clause of [_fetch_url] does not name, is
    raised after one call: no retry. *)
Lemma classified_failure_outside_handler_not_retried :
  _is_certificate_error Examples.bad_status_line = true
  /\ urlopen (Examples.always (Raise Examples.bad_status_line) 0) initial_world
       (make_request Examples.primary StrictContext)
     = Raise Examples.bad_status_line
  /\ _fetch_url (Examples.always (Raise Examples.bad_status_line) 0)
       Examples.primary initial_world
     = (Raise Examples.bad_status_line,
        mkWorld [make_request Examples.primary StrictContext] 0).
Proof. repeat split; reflexivity. Qed.

(** ** The endpoint loops *)

Section Loops.

Variable attempt : string -> M http_response.
Variable loop : list string -> list string -> M http_response.

Hypothesis loop_nil : forall errors, loop [] errors = ret (_send_error_json errors).
Hypothesis loop_cons : forall endpoint rest errors,
  loop (endpoint :: rest) errors
  = try_except (attempt endpoint) CAUGHT
      (fun exc => loop rest (errors ++ [detail endpoint exc])).

Lemma loop_all_failed w endpoints details w' :
  all_failed attempt w endpoints details w' ->
  forall errors, loop endpoints errors w = (Ok (_send_error_json (errors ++ details)), w').
Proof.
  induction 1 as [w | w endpoint exc w1 rest details w2 Hrun Hcaught _ IH]; intros errors.
  - rewrite loop_nil, app_nil_r. reflexivity.
  - rewrite loop_cons. unfold try_except. rewrite Hrun, Hcaught, IH, <- app_assoc.
    reflexivity.
Qed.

(** A run of the loop ends in one of three ways. *)
Lemma loop_outcome endpoints : forall errors w,
  (exists details w',
      all_failed attempt w endpoints details w'
      /\ loop endpoints errors w = (Ok (_send_error_json (errors ++ details)), w'))
  \/ (exists tried endpoint rest details w1 w',
      endpoints = (tried ++ endpoint :: rest)%list
      /\ all_failed attempt w tried details w1
      /\ ((exists resp, attempt endpoint w1 = (Ok resp, w')
                        /\ loop endpoints errors w = (Ok resp, w'))
          \/ (exists exc, attempt endpoint w1 = (Raise exc, w')
                          /\ isinstance exc CAUGHT = false
                          /\ loop endpoints errors w = (Raise exc, w')))).
Proof.
  induction endpoints as [| endpoint rest IH]; intros errors w.
  - left. exists [], w. split; [constructor |]. rewrite loop_nil, app_nil_r. reflexivity.
  - destruct (attempt endpoint w) as [[resp | exc] w1] eqn:Hrun.
    + right. exists [], endpoint, rest, [], w, w1.
      split; [reflexivity |]. split; [constructor |]. left. exists resp.
      split; [exact Hrun |]. rewrite loop_cons. unfold try_except. rewrite Hrun. reflexivity.
    + destruct (isinstance exc CAUGHT) eqn:Hcaught.
      * assert (Hstep : loop (endpoint :: rest) errors w
                        = loop rest (errors ++ [detail endpoint exc])%list w1).
        { rewrite loop_cons. unfold try_except. rewrite Hrun, Hcaught. reflexivity. }
        destruct (IH (errors ++ [detail endpoint exc])%list w1)
          as [(details & w' & Hall & Hout)
             | (tried & ep & post & details & w2 & w' & Heq & Hall & Hend)].
        -- left. exists (detail endpoint exc :: details), w'.
           split; [econstructor; eassumption |].
           rewrite Hstep, Hout, <- app_assoc. reflexivity.
        -- right. exists (endpoint :: tried), ep, post, (detail endpoint exc :: details), w2, w'.
           split; [rewrite Heq; reflexivity |].
           split; [econstructor; eassumption |].
           rewrite Hstep. exact Hend.
      * right. exists [], endpoint, rest, [], w, w1.
        split; [reflexivity |]. split; [constructor |]. right. exists exc.
        split; [exact Hrun |]. split; [exact Hcaught |].
        rewrite loop_cons. unfold try_except. rewrite Hrun, Hcaught. reflexivity.
Qed.

End Loops.

(** One entry per endpoint that failed, each [<endpoint>: <str(exc)>], in
    the order of the endpoints. *)
Lemma all_failed_details {A} (attempt : string -> M A) w endpoints details w' :
  all_failed attempt w endpoints details w' ->
  Forall2 (fun endpoint entry =>
             exists exc w0 w1, attempt endpoint w0 = (Raise exc, w1)
                               /\ isinstance exc CAUGHT = true
                               /\ entry = endpoint ++ ": " ++ exc_str exc)
          endpoints details.
Proof.
  induction 1; constructor; eauto 8.
Qed.

Lemma all_failed_ext {A B} (f : string -> M A) (g : string -> M B) :
  (forall endpoint w exc w1, f endpoint w = (Raise exc, w1) -> g endpoint w = (Raise exc, w1)) ->
  forall w endpoints details w',
    all_failed f w endpoints details w' -> all_failed g w endpoints details w'.
Proof.
  intros Hfg w endpoints details w'. induction 1; econstructor; eauto.
Qed.

Lemma latest_attempt_cases env endpoint w :
  latest_attempt env endpoint w =
  match _fetch_url env endpoint w with
  | (Ok payload, w') => (Ok (mkHttpResponse 200 JSON_HEADERS (RawBody payload)), w')
  | (Raise exc, w') => (Raise exc, w')
  end.
Proof.
  unfold latest_attempt, bind, ret. destruct (_fetch_url env endpoint w) as [[? | ?] ?]; reflexivity.
Qed.

Lemma all_failed_latest env w endpoints details w' :
  all_failed (latest_attempt env) w endpoints details w'
  <-> all_failed (_fetch_url env) w endpoints details w'.
Proof.
  split; apply all_failed_ext; intros endpoint w0 exc w1 H.
  - rewrite latest_attempt_cases in H.
    destruct (_fetch_url env endpoint w0) as [[? | ?] ?]; [discriminate | congruence].
  - rewrite latest_attempt_cases, H. reflexivity.
Qed.

(** C1, as the code has it.  [_handle_ice_latest] fetches the two latest
    endpoints in list order and stops at the first one that does not fail
    with an error of a class it catches ([HTTPError], [URLError],
    [TimeoutError], [RuntimeError], [SSLError], [JSONDecodeError]).  If that
    fetch succeeds, the response is 200 with the fetched bytes as they are;
    if it raises an error of another class, the error leaves the handler.
    The handler sends the error report, with error text "Unable to fetch
    NOAA data." and one entry "<endpoint>: <str(exc)>" per endpoint in trial
    order, if and only if both fetches fail with caught errors. *)
Theorem latest_first_success_or_full_report env w :
  (exists tried details w1,
     all_failed (_fetch_url env) w tried details w1
     /\ Forall2 (fun endpoint entry =>
                   exists exc w0 w0', _fetch_url env endpoint w0 = (Raise exc, w0')
                                      /\ isinstance exc CAUGHT = true
                                      /\ entry = endpoint ++ ": " ++ exc_str exc)
                tried details
     /\ ((tried = NOAA_LATEST_ENDPOINTS
          /\ _handle_ice_latest env w
             = (Ok (mkHttpResponse 502 JSON_HEADERS
                      (JsonBody (JDict [("error", JStr "Unable to fetch NOAA data.");
                                        ("details", JList (map JStr details))]))), w1))
         \/ (exists endpoint rest w',
               NOAA_LATEST_ENDPOINTS = (tried ++ endpoint :: rest)%list
               /\ ((exists payload,
                      _fetch_url env endpoint w1 = (Ok payload, w')
                      /\ _handle_ice_latest env w
                         = (Ok (mkHttpResponse 200 JSON_HEADERS (RawBody payload)), w'))
                   \/ (exists exc,
                         _fetch_url env endpoint w1 = (Raise exc, w')
                         /\ isinstance exc CAUGHT = false
                         /\ _handle_ice_latest env w = (Raise exc, w'))))))
  /\ ((exists details w', all_failed (_fetch_url env) w NOAA_LATEST_ENDPOINTS details w')
      <-> (exists resp w', _handle_ice_latest env w = (Ok resp, w') /\ http_status resp = 502)).
Proof.
  assert (Hnil : forall errors, latest_loop env [] errors = ret (_send_error_json errors))
    by reflexivity.
  assert (Hcons : forall endpoint rest errors,
             latest_loop env (endpoint :: rest) errors
             = try_except (latest_attempt env endpoint) CAUGHT
                 (fun exc => latest_loop env rest (errors ++ [detail endpoint exc])))
    by reflexivity.
  pose proof (loop_outcome (latest_attempt env) (latest_loop env) Hnil Hcons
                NOAA_LATEST_ENDPOINTS [] w) as Hout.
  fold (_handle_ice_latest env) in Hout.
  assert (Hmain :
    exists tried details w1,
     all_failed (_fetch_url env) w tried details w1
     /\ ((tried = NOAA_LATEST_ENDPOINTS
          /\ _handle_ice_latest env w = (Ok (_send_error_json details), w1))
         \/ (exists endpoint rest w',
               NOAA_LATEST_ENDPOINTS = (tried ++ endpoint :: rest)%list
               /\ ((exists payload,
                      _fetch_url env endpoint w1 = (Ok payload, w')
                      /\ _handle_ice_latest env w
                         = (Ok (mkHttpResponse 200 JSON_HEADERS (RawBody payload)), w'))
                   \/ (exists exc,
                         _fetch_url env endpoint w1 = (Raise exc, w')
                         /\ isinstance exc CAUGHT = false
                         /\ _handle_ice_latest env w = (Raise exc, w')))))).
  { destruct Hout as [(details & w' & Hall & Hrun)
                     | (tried & endpoint & rest & details & w1 & w' & Heq & Hall & Hend)].
    - exists NOAA_LATEST_ENDPOINTS, details, w'.
      split; [apply all_failed_latest; exact Hall |]. left. split; [reflexivity | exact Hrun].
    - exists tried, details, w1. split; [apply all_failed_latest; exact Hall |].
      right. exists endpoint, rest, w'. split; [exact Heq |].
      rewrite latest_attempt_cases in Hend.
      destruct (_fetch_url env endpoint w1) as [[payload | exc] w2] eqn:Hfetch.
      + left. exists payload. destruct Hend as [(resp & Hresp & Hrun) | (exc & Hexc & _)];
          [| discriminate]. inversion Hresp; subst. split; [reflexivity | exact Hrun].
      + right. exists exc. destruct Hend as [(resp & Hresp & _) | (exc' & Hexc & Hc & Hrun)];
          [discriminate |]. inversion Hexc; subst. repeat split; assumption. }
  split.
  - destruct Hmain as (tried & details & w1 & Hall & Hend).
    exists tried, details, w1. split; [exact Hall |].
    split; [exact (all_failed_details _ _ _ _ _ Hall) | exact Hend].
  - split.
    + intros (details & w' & Hall). apply all_failed_latest in Hall.
      exists (_send_error_json details), w'. split; [| reflexivity].
      exact (loop_all_failed _ _ Hnil Hcons _ _ _ _ Hall []).
    + intros (resp & w' & Hrun & Hstatus).
      destruct Hmain as (tried & details & w1 & Hall & [[Htried Hrep] | Hend]).
      * subst tried. exists details, w1. exact Hall.
      * exfalso. destruct Hend as (endpoint & rest & w2 & _ & [(payload & _ & Hok) | (exc & _ & _ & Hexc)]).
        -- rewrite Hok in Hrun. inversion Hrun; subst. discriminate.
        -- rewrite Hexc in Hrun. discriminate.
Qed.

(** Both latest endpoints fail, with an error of a class the handler does
    not catch: the handler raises it after the first fetch and sends no
    report. *)
Lemma latest_uncaught_failure_escapes :
  (forall endpoint w, In endpoint NOAA_LATEST_ENDPOINTS ->
     fst (_fetch_url (Examples.always (Raise Examples.remote_disconnected) 0) endpoint w)
     = Raise Examples.remote_disconnected)
  /\ _handle_ice_latest (Examples.always (Raise Examples.remote_disconnected) 0) initial_world
     = (Raise Examples.remote_disconnected,
        mkWorld [make_request Examples.primary StrictContext] 0).
Proof.
  split; [| reflexivity].
  intros endpoint w _. rewrite _fetch_url_cases. reflexivity.
Qed.

Example serving_history_run :
  fst (_handle_ice_history Examples.lib Examples.serving "/api/ice-history?days=10" initial_world)
  = Ok (mkHttpResponse 200 JSON_HEADERS
          (JsonBody (JDict
             [("generated_at", JStr "2024-03-10T12:00:00Z");
              ("days", JInt 14);
              ("rows", JList
                 [JDict [("time", JStr "2024-03-01T00:00:00Z"); ("Superior", JFloat 30);
                         ("Michigan", JFloat 25); ("Huron", JNull); ("Erie", JFloat 10);
                         ("Ontario", JFloat 1); ("GL_Total", JNull)];
                  JDict [("time", JStr "2024-03-02T06:30:00+02:00"); ("Superior", JFloat 31);
                         ("Michigan", JNull); ("Huron", JNull); ("Erie", JNull);
                         ("Ontario", JNull); ("GL_Total", JNull)]])]))).
Proof. vm_compute. reflexivity. Qed.

(** ** The days parameter *)

Lemma split_once_days param :
  String.prefix "days=" param = true ->
  nth 1 (split_once "="%char param) "" = skip 5 param.
Proof.
  intros H.
  do 5 (match type of H with
        | String.prefix _ ?p = true =>
            destruct p as [| ? ?]; cbn [String.prefix] in H; [discriminate H |];
            match type of H with
            | context [ascii_dec ?a ?b] =>
                destruct (ascii_dec a b); [subst | discriminate H]
            end
        end).
  reflexivity.
Qed.

Lemma days_loop_find lib pairs : forall days,
  days_loop lib pairs days =
  match find (String.prefix "days=") pairs with
  | Some param =>
      match int_of_str lib (skip 5 param) with
      | Some n => n
      | None => 90
      end
  | None => days
  end.
Proof.
  induction pairs as [| param rest IH]; intros days; [reflexivity |].
  cbn [days_loop find].
  destruct (String.prefix "days=" param) eqn:Hp; cbn [negb].
  - rewrite split_once_days by exact Hp. reflexivity.
  - apply IH.
Qed.

Lemma max_min_clamp lo hi x : lo <= hi -> Z.max lo (Z.min hi x) = clamp lo hi x.
Proof.
  intros H. unfold clamp.
  destruct (Z.ltb_spec x lo); [lia |].
  destruct (Z.ltb_spec hi x); lia.
Qed.

Lemma _history_days_effective lib path :
  _history_days_from_query lib path = effective_days lib path.
Proof.
  unfold _history_days_from_query, effective_days, first_days_parameter.
  rewrite days_loop_find, max_min_clamp by lia.
  destruct (find (String.prefix "days=") (split_on "&"%char (query_of path))); reflexivity.
Qed.

(** A successful attempt answers 200 with the response for [days]. *)
Lemma history_attempt_ok lib env days endpoint w resp w' :
  history_attempt lib env days endpoint w = (Ok resp, w') ->
  exists generated rows,
    rows <> []
    /\ resp = mkHttpResponse 200 JSON_HEADERS
                (JsonBody (history_response generated days rows)).
Proof.
  unfold history_attempt, bind, lift, raise, ret. intros H.
  repeat step_match H.
  inversion H; subst. eexists _, _. split; [| reflexivity]. discriminate.
Qed.

Lemma history_loop_ok lib env days endpoints errors w resp w' :
  history_loop lib env days endpoints errors w = (Ok resp, w') ->
  http_status resp = 200 ->
  exists generated rows,
    rows <> []
    /\ resp = mkHttpResponse 200 JSON_HEADERS
                (JsonBody (history_response generated days rows)).
Proof.
  intros Hrun Hstatus.
  destruct (loop_outcome (history_attempt lib env days) (history_loop lib env days)
              (fun _ => eq_refl) (fun _ _ _ => eq_refl) endpoints errors w)
    as [(details & w1 & _ & Hout)
       | (tried & endpoint & rest & details & w1 & w2 & _ & _
          & [(resp' & Hattempt & Hout) | (exc & _ & _ & Hout)])];
    rewrite Hout in Hrun; inversion Hrun; subst.
  - discriminate Hstatus.
  - eapply history_attempt_ok; eassumption.
Qed.

(** C3. The days value [_history_days_from_query] returns is the clamp
    into [14, 365] of the integer value of the first [days=] query
    parameter, with 90 taken before clamping when there is no such
    parameter or its text is not an integer; [days=10] gives 14 and
    [days=9999] gives 365; and a history response carries this value in its
    [days] field. *)
Theorem history_days_clamped lib :
  (forall path,
      _history_days_from_query lib path = effective_days lib path
      /\ 14 <= _history_days_from_query lib path <= 365)
  /\ (int_of_str lib "10" = Some 10 ->
      _history_days_from_query lib "/api/ice-history?days=10" = 14)
  /\ (int_of_str lib "9999" = Some 9999 ->
      _history_days_from_query lib "/api/ice-history?days=9999" = 365)
  /\ (forall env path w resp w',
      _handle_ice_history lib env path w = (Ok resp, w') ->
      http_status resp = 200 ->
      exists generated rows,
        http_body_of resp
        = JsonBody (JDict [("generated_at", JStr generated);
                           ("days", JInt (effective_days lib path));
                           ("rows", JList rows)])).
Proof.
  split; [| split; [| split]].
  - intros path. split; [apply _history_days_effective |].
    unfold _history_days_from_query. lia.
  - intros H. rewrite _history_days_effective.
    unfold effective_days, first_days_parameter. cbn. rewrite H. reflexivity.
  - intros H. rewrite _history_days_effective.
    unfold effective_days, first_days_parameter. cbn. rewrite H. reflexivity.
  - intros env path w resp w' Hrun Hstatus.
    unfold _handle_ice_history, bind in Hrun.
    destruct (_history_endpoint lib env (_history_days_from_query lib path) w)
      as [[first | exc] w1] eqn:Hfirst; [| discriminate Hrun].
    destruct (history_loop_ok _ _ _ _ _ _ _ _ Hrun Hstatus) as (generated & rows & _ & Hresp).
    exists generated, rows. rewrite Hresp, _history_days_effective. reflexivity.
Qed.

Lemma history_days_clamped_witness :
  _history_days_from_query Examples.lib "/api/ice-history?days=10" = 14
  /\ _history_days_from_query Examples.lib "/api/ice-history?days=9999" = 365
  /\ exists generated rows,
       http_body_of
         (mkHttpResponse 200 JSON_HEADERS
            (JsonBody (JDict
               [("generated_at", JStr "2024-03-10T12:00:00Z");
                ("days", JInt 14);
                ("rows", JList
                   [JDict [("time", JStr "2024-03-01T00:00:00Z"); ("Superior", JFloat 30);
                           ("Michigan", JFloat 25); ("Huron", JNull); ("Erie", JFloat 10);
                           ("Ontario", JFloat 1); ("GL_Total", JNull)];
                    JDict [("time", JStr "2024-03-02T06:30:00+02:00");
                           ("Superior", JFloat 31);
                           ("Michigan", JNull); ("Huron", JNull); ("Erie", JNull);
                           ("Ontario", JNull); ("GL_Total", JNull)]])])))
       = JsonBody (JDict [("generated_at", JStr generated);
                          ("days", JInt (effective_days Examples.lib "/api/ice-history?days=10"));
                          ("rows", JList rows)]).
Proof.
  destruct (history_days_clamped Examples.lib) as (_ & Hlow & Hhigh & Hfield).
  split; [apply Hlow; reflexivity |].
  split; [apply Hhigh; reflexivity |].
  apply (Hfield Examples.serving "/api/ice-history?days=10" initial_world _
           (snd (_handle_ice_history Examples.lib Examples.serving
                   "/api/ice-history?days=10" initial_world))).
  - vm_compute. reflexivity.
  - reflexivity.
Defined.

(** ** The tabular decoder *)

Section DecoderFacts.

Variable lib : pylib.

Lemma obind_ok {A} (o : outcome A) : obind o (fun a => Ok a) = o.
Proof. destruct o; reflexivity. Qed.

Lemma skipn_nth_cons (i : nat) (l : list json) :
  (i < List.length l)%nat -> skipn i l = nth i l JNull :: skipn (S i) l.
Proof.
  revert i. induction l as [| x l IH]; intros i H; simpl in H; [lia |].
  destruct i as [| i]; [reflexivity |].
  cbn [skipn nth]. apply IH. lia.
Qed.

(** Without the indices: the names paired with the values, as far as both
    go. *)
Lemma row_of_from (raw_row : list json) names : forall (i : nat) acc,
  fold_left
    (fun acc '(index, name) =>
       obind acc (fun d =>
         if (index <? List.length raw_row)%nat
         then setitem lib d name (nth index raw_row JNull)
         else Ok d))
    (combine (seq i (List.length names)) names) acc
  = fold_left (fun acc '(name, v) => obind acc (fun d => setitem lib d name v))
      (combine names (skipn i raw_row)) acc.
Proof.
  induction names as [| name names IH]; intros i acc; [reflexivity |].
  cbn [List.length seq combine fold_left]. rewrite IH.
  destruct (Nat.ltb_spec i (List.length raw_row)) as [Hlt | Hge].
  - rewrite (skipn_nth_cons i raw_row Hlt). reflexivity.
  - rewrite obind_ok. rewrite (skipn_all2 raw_row) by lia.
    rewrite (skipn_all2 raw_row) by lia. rewrite combine_nil. reflexivity.
Qed.

Lemma row_of_pairs column_names raw_row :
  row_of lib column_names raw_row
  = fold_left (fun acc '(name, v) => obind acc (fun d => setitem lib d name v))
      (combine column_names raw_row) (Ok []).
Proof.
  unfold row_of, enumerate. apply (row_of_from raw_row column_names 0%nat).
Qed.





Lemma map_fst_combine {A B} (l : list A) : forall (l' : list B),
  map fst (combine l l') = firstn (List.length l') l.
Proof.
  induction l as [| a l IH]; intros l'.
  - rewrite firstn_nil. reflexivity.
  - destruct l' as [| b l']; [reflexivity |]. cbn [combine map List.length firstn].
    rewrite IH. reflexivity.
Qed.









End DecoderFacts.

(** C8, as the code has it.  For every payload whose top-level value is
    an object: if it has no [table] entry that is an object, or the
    [columnNames] entry of the table is not a list, or its [rows] entry is
    not a list, [_extract_rows] returns the empty list and does not
    raise. *)
Theorem extract_rows_malformed_envelope lib fields :
  (forall table, dict_get fields "table" <> Some (JDict table))
  \/ (exists table,
        dict_get fields "table" = Some (JDict table)
        /\ ((forall names, dict_get table "columnNames" <> Some (JList names))
            \/ (forall rows, dict_get table "rows" <> Some (JList rows)))) ->
  _extract_rows lib (JDict fields) = Ok [].
Proof.
  intros [Hno | (table & Htable & Hbad)]; unfold _extract_rows, get_or_none.
  - destruct (dict_get fields "table") as [[] |]; try reflexivity.
    exfalso. eapply Hno. reflexivity.
  - rewrite Htable.
    destruct (dict_get table "columnNames") as [names |] eqn:Hnames;
      [destruct names; try reflexivity |].
    + destruct (dict_get table "rows") as [rows |] eqn:Hrows;
        [destruct rows; try reflexivity |].
      * exfalso. destruct Hbad as [Hbad | Hbad]; eapply Hbad; reflexivity.
      * reflexivity.
    + reflexivity.
Qed.

Lemma extract_rows_malformed_envelope_witness :
  _extract_rows Examples.lib (JDict [("error", JStr "busy")]) = Ok []
  /\ _extract_rows Examples.lib
       (JDict [("table", JDict [("columnNames", JStr "time");
                                ("rows", JList [JList [JInt 1]])])]) = Ok []
  /\ _extract_rows Examples.lib
       (JDict [("table", JDict [("columnNames", JList [JStr "time"])])]) = Ok [].
Proof.
  split; [| split]; apply extract_rows_malformed_envelope.
  - left. intros table. discriminate.
  - right. eexists. split; [reflexivity |]. left. intros names. discriminate.
  - right. eexists. split; [reflexivity |]. right. intros rows. discriminate.
Defined.

(** A payload whose top-level value is an array has no [table] object;
    [payload.get] raises [AttributeError] on it. *)
Lemma extract_rows_of_array_raises :
  _extract_rows Examples.lib (JList [])
  = Raise (new_exn AttributeError "'list' object has no attribute 'get'").
Proof. reflexivity. Qed.



Example decoded_short_row :
  option_map (fun records => nth 3 records [])
    (match _extract_rows Examples.lib Examples.envelope with
     | Ok records => Some records
     | Raise _ => None
     end)
  = Some [(JStr "time", JStr "2024-03-02T06:30:00+02:00"); (JStr "Superior", JInt 31)].
Proof. reflexivity. Qed.

(** ** The history filter *)

Section FilterFacts.

Variable lib : pylib.

(** A row whose time does not parse leaves no trace. *)
Lemma trim_loop_drop cutoff row rows2 :
  _parse_time lib (time_text_of lib row) = None ->
  forall rows1 trimmed,
    trim_loop lib cutoff (rows1 ++ row :: rows2) trimmed
    = trim_loop lib cutoff (rows1 ++ rows2) trimmed.
Proof.
  intros Hbad. induction rows1 as [| r rows1 IH]; intros trimmed.
  - cbn [app trim_loop]. rewrite Hbad. reflexivity.
  - cbn [app trim_loop].
    destruct (_parse_time lib (time_text_of lib r)) as [stamp |]; [| apply IH].
    destruct (datetime_ge stamp cutoff) as [[|] | exc]; cbn [obind]; try apply IH; try reflexivity.
    destruct (history_point lib (time_text_of lib r) r); cbn [obind]; [apply IH | reflexivity].
Qed.

(** The entries of a point: the given names in order, each with the
    coerced value of the row. *)
Lemma lake_entries_ok row names : forall entries,
  lake_entries lib row names = Ok entries ->
  Forall2 (fun name entry =>
             exists x, _to_float lib (row_get_or_none lib row name) = Ok x
                       /\ entry = (name, json_of_float x))
          names entries.
Proof.
  induction names as [| name names IH]; intros entries H; cbn [lake_entries] in H.
  - inversion H. constructor.
  - destruct (_to_float lib (row_get_or_none lib row name)) as [x | exc] eqn:Hx;
      cbn [obind] in H; [| discriminate H].
    destruct (lake_entries lib row names) as [rest | exc]; cbn [obind] in H; [| discriminate H].
    inversion H; subst. constructor; [exists x; split; [exact Hx | reflexivity] |].
    apply IH. reflexivity.
Qed.

(** The coercion of one value. *)
Lemma _to_float_cases value :
  _to_float lib value =
  match value with
  | JInt n =>
      match float_of_int lib n with
      | Some f => Ok (Some f)
      | None => Raise (new_exn OverflowError "int too large to convert to float")
      end
  | JFloat f => Ok (Some f)
  | JBool b => Ok (Some (if b then 1%float else 0%float))
  | JStr s => Ok (float_of_str lib s)
  | _ => Ok (float_of_str lib (py_str lib value))
  end.
Proof. destruct value; reflexivity. Qed.

(** A point has exactly the seven keys, [time] with the text of the record
    and the six lakes with their coerced values. *)
Lemma history_point_shape time_text row point :
  history_point lib time_text row = Ok point ->
  exists superior michigan huron erie ontario total,
    point = JDict [("time", JStr time_text);
                   ("Superior", json_of_float superior);
                   ("Michigan", json_of_float michigan);
                   ("Huron", json_of_float huron);
                   ("Erie", json_of_float erie);
                   ("Ontario", json_of_float ontario);
                   ("GL_Total", json_of_float total)]
    /\ _to_float lib (row_get_or_none lib row "Superior") = Ok superior
    /\ _to_float lib (row_get_or_none lib row "Michigan") = Ok michigan
    /\ _to_float lib (row_get_or_none lib row "Huron") = Ok huron
    /\ _to_float lib (row_get_or_none lib row "Erie") = Ok erie
    /\ _to_float lib (row_get_or_none lib row "Ontario") = Ok ontario
    /\ _to_float lib (row_get_or_none lib row "GL_Total") = Ok total.
Proof.
  unfold history_point. intros H.
  destruct (lake_entries lib row LAKE_FIELDS) as [entries | exc] eqn:Hentries;
    cbn [obind] in H; [| discriminate H].
  inversion H; subst. apply lake_entries_ok in Hentries. unfold LAKE_FIELDS in Hentries.
  repeat match goal with
         | Hall : Forall2 _ (_ :: _) _ |- _ =>
             inversion Hall as [| ? ? ? ? [? [? ?]] ?]; subst; clear Hall
         | Hall : Forall2 _ [] _ |- _ => inversion Hall; subst; clear Hall
         end.
  do 6 eexists. repeat split; eassumption.
Qed.

(** With every time that parses carrying an offset and every kept row
    projecting without error, the filter returns the points of the rows in
    the window, in the order of the rows. *)
Lemma trim_loop_window cutoff rows : forall trimmed,
  Forall (fun row => forall t, _parse_time lib (time_text_of lib row) <> Some (Naive t)) rows ->
  Forall (fun row => in_window lib cutoff row = true ->
                     exists point, history_point lib (time_text_of lib row) row = Ok point)
         rows ->
  exists points,
    trim_loop lib (Aware cutoff) rows trimmed = Ok (trimmed ++ points)%list
    /\ Forall2 (fun row point => history_point lib (time_text_of lib row) row = Ok point)
               (filter (in_window lib cutoff) rows) points.
Proof.
  induction rows as [| row rows IH]; intros trimmed Haware Hpoints.
  - exists []. rewrite app_nil_r. split; [reflexivity | constructor].
  - inversion Haware as [| ? ? Hrow Haware']; subst.
    inversion Hpoints as [| ? ? Hpoint Hpoints']; subst.
    cbn [trim_loop filter]. unfold in_window in Hpoint |- *.
    destruct (_parse_time lib (time_text_of lib row)) as [[t | t] |].
    + exfalso. apply (Hrow t). reflexivity.
    + cbn [datetime_ge obind]. destruct (cutoff <=? t).
      * destruct (Hpoint eq_refl) as [point Hp]. rewrite Hp. cbn [obind].
        destruct (IH (trimmed ++ [point])%list Haware' Hpoints') as (points & Hrun & Hall).
        exists (point :: points). rewrite Hrun, <- app_assoc.
        split; [reflexivity | constructor; assumption].
      * apply IH; assumption.
    + apply IH; assumption.
Qed.

End FilterFacts.

Lemma lake_entries_overflow lib row name n names :
  In name names ->
  record_get lib row name = Some (JInt n) ->
  float_of_int lib n = None ->
  lake_entries lib row names
  = Raise (new_exn OverflowError "int too large to convert to float").
Proof.
  intros Hin Hget Hbig. induction names as [| name' names IH]; [contradiction |].
  cbn [lake_entries].
  destruct (_to_float lib (row_get_or_none lib row name')) as [x | exc] eqn:Hx.
  - cbn [obind]. destruct Hin as [-> | Hin].
    + unfold row_get_or_none in Hx. rewrite Hget in Hx. cbn [_to_float] in Hx.
      rewrite Hbig in Hx. discriminate Hx.
    + rewrite (IH Hin). reflexivity.
  - cbn [obind]. rewrite _to_float_cases in Hx.
    destruct (row_get_or_none lib row name'); try discriminate Hx.
    destruct (float_of_int lib n0); [discriminate Hx |]. inversion Hx. reflexivity.
Qed.

(** C5 on a record with an integer beyond the range of a float.  The
    record is in the window and one of its six numeric fields is an [int]
    that [float] cannot convert: [_to_float] takes the [isinstance] branch,
    outside its [try], and the [OverflowError] ends [_trim_history_rows]; no
    point is produced. *)
Theorem trim_raises_on_unconvertible_integer lib env row rows days w name n :
  in_window lib (clock env (ticks w) - days * DAY) row = true ->
  In name LAKE_FIELDS ->
  record_get lib row name = Some (JInt n) ->
  float_of_int lib n = None ->
  _to_float lib (JInt n) = Raise (new_exn OverflowError "int too large to convert to float")
  /\ fst (_trim_history_rows lib env (row :: rows) days w)
     = Raise (new_exn OverflowError "int too large to convert to float").
Proof.
  intros Hwin Hin Hget Hbig. split.
  - cbn [_to_float]. rewrite Hbig. reflexivity.
  - unfold _trim_history_rows, bind, utcnow, lift. cbn [fst trim_loop].
    unfold in_window in Hwin.
    destruct (_parse_time lib (time_text_of lib row)) as [[t | t] |]; try discriminate Hwin.
    cbn [datetime_ge obind]. rewrite Hwin. unfold history_point.
    rewrite (lake_entries_overflow lib row name n LAKE_FIELDS Hin Hget Hbig). reflexivity.
Qed.

Lemma trim_raises_on_unconvertible_integer_witness :
  _to_float Examples.lib (JInt Examples.huge)
  = Raise (new_exn OverflowError "int too large to convert to float")
  /\ fst (_trim_history_rows Examples.lib Examples.serving [Examples.huge_row] 14 initial_world)
     = Raise (new_exn OverflowError "int too large to convert to float").
Proof.
  apply (trim_raises_on_unconvertible_integer Examples.lib Examples.serving
           Examples.huge_row [] 14 initial_world "Superior" Examples.huge).
  - vm_compute. reflexivity.
  - left. reflexivity.
  - reflexivity.
  - vm_compute. reflexivity.
Defined.

(** The same integer in the upstream body: the error is of no class the
    handler catches and leaves [_handle_ice_history]. *)
Example unconvertible_integer_escapes_handler :
  fst (_handle_ice_history Examples.lib
         (Examples.serving_body (Reference.ascii_bytes Examples.huge_text))
         "/api/ice-history?days=30" initial_world)
  = Raise (new_exn OverflowError "int too large to convert to float").
Proof. vm_compute. reflexivity. Qed.

(** C6 on a record whose time has no offset.  [fromisoformat] returns a
    naive datetime, the cutoff is aware, and the comparison raises
    [TypeError]; [_trim_history_rows] neither keeps nor drops the record. *)
Theorem trim_raises_on_time_without_offset lib env row rows days w t :
  _parse_time lib (time_text_of lib row) = Some (Naive t) ->
  fst (_trim_history_rows lib env (row :: rows) days w)
  = Raise (new_exn TypeError "can't compare offset-naive and offset-aware datetimes").
Proof.
  intros Hnaive. unfold _trim_history_rows, bind, utcnow, lift. cbn [fst trim_loop].
  rewrite Hnaive. reflexivity.
Qed.

Lemma trim_raises_on_time_without_offset_witness :
  fst (_trim_history_rows Examples.lib Examples.serving [Examples.naive_row] 14 initial_world)
  = Raise (new_exn TypeError "can't compare offset-naive and offset-aware datetimes").
Proof.
  apply (trim_raises_on_time_without_offset Examples.lib Examples.serving
           Examples.naive_row [] 14 initial_world (1709596800 * 1000000)).
  vm_compute. reflexivity.
Defined.

(** The same time in the upstream body: the error leaves
    [_handle_ice_history]. *)
Example time_without_offset_escapes_handler :
  fst (_handle_ice_history Examples.lib
         (Examples.serving_body (Reference.ascii_bytes Examples.naive_text))
         "/api/ice-history?days=30" initial_world)
  = Raise (new_exn TypeError "can't compare offset-naive and offset-aware datetimes").
Proof. vm_compute. reflexivity. Qed.

(** The rows [_trim_history_rows] returns depend on the world through one
    reading of the clock only. *)
Lemma _trim_history_rows_value lib env rows days w :
  fst (_trim_history_rows lib env rows days w)
  = trim_loop lib (Aware (clock env (ticks w) - days * DAY)) rows [].
Proof.
  destruct rows; reflexivity.
Qed.

(** What an attempt of the history handler does, step by step. *)
Lemma history_attempt_cases lib env days endpoint w :
  history_attempt lib env days endpoint w =
  match _fetch_url env endpoint w with
  | (Raise exc, w1) => (Raise exc, w1)
  | (Ok payload, w1) =>
      match obind (loads_utf8 lib payload) (_extract_rows lib) with
      | Raise exc => (Raise exc, w1)
      | Ok [] => (Raise (new_exn RuntimeError "No rows returned"), w1)
      | Ok (row :: rows) =>
          match _trim_history_rows lib env (row :: rows) days w1 with
          | (Raise exc, w2) => (Raise exc, w2)
          | (Ok [], w2) => (Raise (new_exn RuntimeError "No rows in requested date range"), w2)
          | (Ok (point :: points), w2) =>
              (Ok (mkHttpResponse 200 JSON_HEADERS
                     (JsonBody (history_response
                                  (strftime lib "%Y-%m-%dT%H:%M:%SZ" (clock env (ticks w2)))
                                  days (point :: points)))),
               mkWorld (net_log w2) (S (ticks w2)))
          end
      end
  end.
Proof.
  unfold history_attempt, _fetch_json, bind, lift, raise, ret.
  destruct (_fetch_url env endpoint w) as [[payload | exc] w1]; [| reflexivity].
  destruct (loads_utf8 lib payload) as [value | exc]; [| reflexivity]. cbn [obind].
  destruct (_extract_rows lib value) as [[| row rows] | exc]; try reflexivity.
  destruct (_trim_history_rows lib env (row :: rows) days w1) as [[[| point points] | exc] w2];
    reflexivity.
Qed.

(** C7, as the code has it.  A record whose time does not parse is dropped
    and the remaining records are processed as if it were not there.  In
    [_handle_ice_history] every failure of an attempt whose class the
    handler catches ([HTTPError], [URLError], [TimeoutError],
    [RuntimeError], [SSLError], [JSONDecodeError]) becomes the entry
    "<endpoint>: <str(exc)>" and the next endpoint is tried; an exception
    leaves the handler exactly when an attempt raises one of another
    class. *)
Theorem unparsable_dropped_and_caught_failures_reported lib env :
  (forall rows1 row rows2 days w,
      _parse_time lib (time_text_of lib row) = None ->
      fst (_trim_history_rows lib env (rows1 ++ row :: rows2) days w)
      = fst (_trim_history_rows lib env (rows1 ++ rows2) days w))
  /\ (forall path w,
      let days := _history_days_from_query lib path in
      exists first w0 tried details w1,
        _history_endpoint lib env days w = (Ok first, w0)
        /\ all_failed (history_attempt lib env days) w0 tried details w1
        /\ Forall2 (fun endpoint entry =>
                      exists exc wa wb,
                        history_attempt lib env days endpoint wa = (Raise exc, wb)
                        /\ isinstance exc CAUGHT = true
                        /\ entry = endpoint ++ ": " ++ exc_str exc)
                   tried details
        /\ ((tried = [first; NOAA_BASE_ENDPOINT]
             /\ _handle_ice_history lib env path w = (Ok (_send_error_json details), w1))
            \/ (exists endpoint rest w',
                  [first; NOAA_BASE_ENDPOINT] = (tried ++ endpoint :: rest)%list
                  /\ ((exists resp,
                         history_attempt lib env days endpoint w1 = (Ok resp, w')
                         /\ _handle_ice_history lib env path w = (Ok resp, w'))
                      \/ (exists exc,
                            history_attempt lib env days endpoint w1 = (Raise exc, w')
                            /\ isinstance exc CAUGHT = false
                            /\ _handle_ice_history lib env path w = (Raise exc, w'))))))
  /\ (forall path w exc w',
      _handle_ice_history lib env path w = (Raise exc, w') ->
      isinstance exc CAUGHT = false).
Proof.
  assert (Hmain : forall path w,
      let days := _history_days_from_query lib path in
      exists first w0 tried details w1,
        _history_endpoint lib env days w = (Ok first, w0)
        /\ all_failed (history_attempt lib env days) w0 tried details w1
        /\ ((tried = [first; NOAA_BASE_ENDPOINT]
             /\ _handle_ice_history lib env path w = (Ok (_send_error_json details), w1))
            \/ (exists endpoint rest w',
                  [first; NOAA_BASE_ENDPOINT] = (tried ++ endpoint :: rest)%list
                  /\ ((exists resp,
                         history_attempt lib env days endpoint w1 = (Ok resp, w')
                         /\ _handle_ice_history lib env path w = (Ok resp, w'))
                      \/ (exists exc,
                            history_attempt lib env days endpoint w1 = (Raise exc, w')
                            /\ isinstance exc CAUGHT = false
                            /\ _handle_ice_history lib env path w = (Raise exc, w')))))).
  { intros path w days. unfold _handle_ice_history. fold days.
    unfold bind. destruct (_history_endpoint lib env days w) as [[first | exc] w0] eqn:Hfirst;
      [| discriminate Hfirst].
    exists first, w0.
    destruct (loop_outcome (history_attempt lib env days) (history_loop lib env days)
                (fun _ => eq_refl) (fun _ _ _ => eq_refl) [first; NOAA_BASE_ENDPOINT] [] w0)
      as [(details & w1 & Hall & Hout)
         | (tried & endpoint & rest & details & w1 & w' & Heq & Hall & Hend)].
    - exists [first; NOAA_BASE_ENDPOINT], details, w1.
      split; [reflexivity |]. split; [exact Hall |]. left. split; [reflexivity | exact Hout].
    - exists tried, details, w1. split; [reflexivity |]. split; [exact Hall |].
      right. exists endpoint, rest, w'. split; [exact Heq | exact Hend]. }
  split; [| split].
  - intros rows1 row rows2 days w Hbad. rewrite !_trim_history_rows_value.
    apply trim_loop_drop. exact Hbad.
  - intros path w days.
    destruct (Hmain path w) as (first & w0 & tried & details & w1 & Hfirst & Hall & Hend).
    exists first, w0, tried, details, w1. split; [exact Hfirst |]. split; [exact Hall |].
    split; [exact (all_failed_details _ _ _ _ _ Hall) | exact Hend].
  - intros path w exc w' Hrun.
    destruct (Hmain path w) as (first & w0 & tried & details & w1 & _ & _ & Hend).
    destruct Hend as [[_ Hout]
                     | (endpoint & rest & w2 & _ & [(resp & _ & Hout) | (exc' & _ & Hc & Hout)])];
      rewrite Hout in Hrun; inversion Hrun; subst. exact Hc.
Qed.

Lemma unparsable_dropped_witness :
  fst (_trim_history_rows Examples.lib Examples.serving
         ([Examples.early_row] ++ Examples.undated_row :: [Examples.late_row]) 14 initial_world)
  = fst (_trim_history_rows Examples.lib Examples.serving
           ([Examples.early_row] ++ [Examples.late_row]) 14 initial_world)
  /\ isinstance (new_exn OverflowError "int too large to convert to float") CAUGHT = false.
Proof.
  destruct (unparsable_dropped_and_caught_failures_reported Examples.lib
              (Examples.serving_body (Reference.ascii_bytes Examples.huge_text)))
    as (_ & _ & Hescape).
  destruct (unparsable_dropped_and_caught_failures_reported Examples.lib Examples.serving)
    as (Hdrop & _ & _).
  split.
  - apply Hdrop. vm_compute. reflexivity.
  - apply (Hescape "/api/ice-history?days=30" initial_world _
             (snd (_handle_ice_history Examples.lib
                     (Examples.serving_body (Reference.ascii_bytes Examples.huge_text))
                     "/api/ice-history?days=30" initial_world))).
    vm_compute. reflexivity.
Defined.

(** The upstream answers 200 with a body that is not UTF-8 text: the
    decoding failure is a [UnicodeDecodeError], which the handler does not
    catch; it leaves [_handle_ice_history] and no entry is recorded. *)
Lemma decode_failure_escapes_handler :
  fst (_handle_ice_history Examples.lib (Examples.serving_body Examples.not_utf8)
         "/api/ice-history?days=30" initial_world)
  = Raise (new_exn UnicodeDecodeError "'utf-8' codec can't decode bytes").
Proof. vm_compute. reflexivity. Qed.

(** C10, as the code has it.  Decoding and filtering the same bytes with
    the same days gives the same rows whenever the clock shows the same
    time: the result depends on the bytes, the days and one reading of the
    clock, and on nothing else of the world. *)
Theorem decode_then_filter_same_clock lib env1 env2 payload days w1 w2 :
  clock env1 (ticks w1) = clock env2 (ticks w2) ->
  fst (decode_then_filter lib env1 payload days w1)
  = fst (decode_then_filter lib env2 payload days w2).
Proof.
  intros Hclock. unfold decode_then_filter, bind, lift.
  destruct (decode lib payload) as [rows | exc]; [| reflexivity].
  rewrite !_trim_history_rows_value, Hclock. reflexivity.
Qed.

Lemma decode_then_filter_same_clock_witness :
  fst (decode_then_filter Examples.lib Examples.serving
         (Reference.ascii_bytes Examples.envelope_text) 14 initial_world)
  = fst (decode_then_filter Examples.lib Examples.moving_clock
           (Reference.ascii_bytes Examples.envelope_text) 14
           (mkWorld [make_request Examples.primary StrictContext] 0)).
Proof.
  apply decode_then_filter_same_clock. reflexivity.
Defined.

(** The same bytes and the same days, decoded and filtered twice while the
    clock moves on by five days: the second run has lost a row. *)
Lemma decode_then_filter_twice_differs :
  fst (decode_then_filter Examples.lib Examples.moving_clock
         (Reference.ascii_bytes Examples.envelope_text) 14 initial_world)
  <> fst (decode_then_filter Examples.lib Examples.moving_clock
            (Reference.ascii_bytes Examples.envelope_text) 14
            (snd (decode_then_filter Examples.lib Examples.moving_clock
                    (Reference.ascii_bytes Examples.envelope_text) 14 initial_world))).
Proof. vm_compute. discriminate. Qed.

(** * Further properties *)

(** ** Splitting and joining text *)

Lemma split_once_without c s :
  has_char c s = false -> split_once c s = [s].
Proof.
  induction s as [| a s IH]; intros H; [reflexivity |].
  cbn [has_char] in H. apply orb_false_iff in H. destruct H as [Ha Hs].
  cbn [split_once]. rewrite Ha, (IH Hs). reflexivity.
Qed.

Lemma split_once_at c s t :
  has_char c s = false -> split_once c (s ++ String c t) = [s; t].
Proof.
  induction s as [| a s IH]; intros H.
  - cbn. rewrite Ascii.eqb_refl. reflexivity.
  - cbn [has_char] in H. apply orb_false_iff in H. destruct H as [Ha Hs].
    cbn [append split_once]. rewrite Ha, (IH Hs). reflexivity.
Qed.

Lemma has_char_append c s t :
  has_char c (s ++ t) = has_char c s || has_char c t.
Proof.
  induction s as [| a s IH]; [reflexivity |].
  cbn [append has_char]. rewrite IH, orb_assoc. reflexivity.
Qed.

Lemma split_on_nonempty c s : split_on c s <> [].
Proof.
  destruct s as [| a s]; cbn [split_on]; [discriminate |].
  destruct (Ascii.eqb a c); [discriminate |].
  destruct (split_on c s); discriminate.
Qed.

Lemma split_on_without c s :
  has_char c s = false -> split_on c s = [s].
Proof.
  induction s as [| a s IH]; intros H; [reflexivity |].
  cbn [has_char] in H. apply orb_false_iff in H. destruct H as [Ha Hs].
  cbn [split_on]. rewrite Ha, (IH Hs). reflexivity.
Qed.

Lemma split_on_at c s t :
  has_char c s = false -> split_on c (s ++ String c t) = s :: split_on c t.
Proof.
  induction s as [| a s IH]; intros H.
  - cbn. rewrite Ascii.eqb_refl. reflexivity.
  - cbn [has_char] in H. apply orb_false_iff in H. destruct H as [Ha Hs].
    cbn [append split_on]. rewrite Ha, (IH Hs). reflexivity.
Qed.

(** Joining pieces that do not contain the separator and splitting again
    gives the pieces back. *)
Lemma split_on_join_on c pieces :
  pieces <> [] ->
  Forall (fun piece => has_char c piece = false) pieces ->
  split_on c (join_on c pieces) = pieces.
Proof.
  induction pieces as [| piece rest IH]; intros Hne Hall; [contradiction |].
  inversion Hall as [| ? ? Hpiece Hrest]; subst.
  destruct rest as [| next rest].
  - cbn [join_on]. apply split_on_without. exact Hpiece.
  - change (join_on c (piece :: next :: rest))
      with (piece ++ String c (join_on c (next :: rest))).
    rewrite (split_on_at c piece _ Hpiece), IH; [reflexivity | discriminate | exact Hrest].
Qed.

(** Splitting a text and joining the pieces gives the text back, and no
    piece contains the separator. *)
Lemma join_on_split_on c s :
  join_on c (split_on c s) = s
  /\ Forall (fun piece => has_char c piece = false) (split_on c s).
Proof.
  induction s as [| a s [IHjoin IHall]].
  - split; [reflexivity | repeat constructor].
  - cbn [split_on]. destruct (Ascii.eqb a c) eqn:Ha.
    + apply Ascii.eqb_eq in Ha. subst a.
      pose proof (split_on_nonempty c s) as Hne.
      destruct (split_on c s) as [| piece pieces]; [contradiction |].
      split; [| constructor; [reflexivity | exact IHall]].
      change (join_on c (EmptyString :: piece :: pieces))
        with (EmptyString ++ String c (join_on c (piece :: pieces))).
      rewrite IHjoin. reflexivity.
    + pose proof (split_on_nonempty c s) as Hne.
      destruct (split_on c s) as [| piece pieces]; [contradiction |].
      pose proof (Forall_inv IHall) as Hpiece. cbv beta in Hpiece.
      pose proof (Forall_inv_tail IHall) as Hpieces.
      split.
      * destruct pieces as [| next pieces].
        -- cbn [join_on] in IHjoin |- *. rewrite IHjoin. reflexivity.
        -- change (join_on c (String a piece :: next :: pieces))
             with (String a (piece ++ String c (join_on c (next :: pieces)))).
           change (join_on c (piece :: next :: pieces))
             with (piece ++ String c (join_on c (next :: pieces))) in IHjoin.
           rewrite IHjoin. reflexivity.
      * constructor; [| exact Hpieces]. cbn [has_char]. rewrite Ha, Hpiece. reflexivity.
Qed.

Lemma query_of_at base query :
  has_char "?"%char base = false -> query_of (base ++ String "?"%char query) = query.
Proof.
  intros H. unfold query_of.
  rewrite has_char_append, H. cbn [has_char orb]. rewrite Ascii.eqb_refl. cbn [orb].
  rewrite (split_once_at "?"%char base query H). reflexivity.
Qed.

Lemma query_of_without path :
  has_char "?"%char path = false -> query_of path = "".
Proof.
  intros H. unfold query_of. rewrite H. reflexivity.
Qed.

(** The text before the first question mark, the mark and the query make
    up the path again. *)
Lemma path_head_and_query path :
  let head := nth 0 (split_once "?"%char path) "" in
  has_char "?"%char head = false
  /\ path = head ++ (if has_char "?"%char path then String "?"%char (query_of path) else "").
Proof.
  unfold query_of. induction path as [| a path [IHhead IHpath]].
  - split; reflexivity.
  - cbn [split_once has_char]. destruct (Ascii.eqb a "?"%char) eqn:Ha.
    + apply Ascii.eqb_eq in Ha. subst a. split; reflexivity.
    + cbn [orb].
      destruct (split_once "?"%char path) as [| head rest] eqn:Hsplit.
      * destruct path; cbn in Hsplit; [discriminate |].
        destruct (Ascii.eqb a0 "?"%char); [discriminate |].
        destruct (split_once "?"%char path); discriminate.
      * cbn [nth] in IHhead, IHpath |- *. split.
        -- cbn [has_char]. rewrite Ha, IHhead. reflexivity.
        -- cbn [append]. f_equal.
           destruct (has_char "?"%char path); [| exact IHpath].
           destruct rest as [| q rest]; exact IHpath.
Qed.

Lemma find_after_misses {A} (f : A -> bool) before x after :
  Forall (fun y => f y = false) before -> f x = true ->
  find f (before ++ x :: after) = Some x.
Proof.
  intros Hbefore Hx. induction Hbefore as [| y before Hy _ IH].
  - cbn. rewrite Hx. reflexivity.
  - cbn [app find]. rewrite Hy. exact IH.
Qed.

Lemma find_all_miss {A} (f : A -> bool) l :
  Forall (fun y => f y = false) l -> find f l = None.
Proof.
  induction 1 as [| y l Hy _ IH]; [reflexivity |]. cbn [find]. rewrite Hy. exact IH.
Qed.

Lemma prefix_of_append s t : String.prefix s (s ++ t) = true.
Proof.
  induction s as [| a s IH]; [destruct t; reflexivity |].
  cbn [append String.prefix]. destruct (ascii_dec a a) as [_ | Hne]; [exact IH |].
  exfalso. apply Hne. reflexivity.
Qed.

(** ** The days parameter among other parameters *)

(** X1. In a request path made of a base without question mark and a
    query of pairs joined by [&], [_history_days_from_query] finds the
    first pair that starts with [days=] wherever it stands, whatever the
    pairs before and after it are, and clamps its integer value (90 when the
    text is no integer); with no such pair, or with no query at all, the
    result is 90. *)
Theorem days_parameter_found_among_pairs lib base :
  has_char "?"%char base = false ->
  (forall before text after,
      Forall (fun param => has_char "&"%char param = false
                           /\ String.prefix "days=" param = false) before ->
      has_char "&"%char text = false ->
      Forall (fun param => has_char "&"%char param = false) after ->
      _history_days_from_query lib
        (base ++ String "?"%char (join_on "&"%char (before ++ ("days=" ++ text)%string :: after)%list))
      = clamp 14 365 (match int_of_str lib text with Some n => n | None => 90 end))
  /\ (forall params,
      params <> [] ->
      Forall (fun param => has_char "&"%char param = false
                           /\ String.prefix "days=" param = false) params ->
      _history_days_from_query lib (base ++ String "?"%char (join_on "&"%char params)) = 90)
  /\ _history_days_from_query lib base = 90.
Proof.
  intros Hbase. split; [| split].
  - intros before text after Hbefore Htext Hafter.
    rewrite _history_days_effective. unfold effective_days, first_days_parameter.
    rewrite (query_of_at base _ Hbase), split_on_join_on.
    + rewrite (find_after_misses (String.prefix "days=") before ("days=" ++ text)%string after).
      * reflexivity.
      * eapply Forall_impl; [| exact Hbefore]. intros param [_ H]. exact H.
      * apply prefix_of_append.
    + destruct before; discriminate.
    + apply Forall_app. split.
      * eapply Forall_impl; [| exact Hbefore]. intros param [H _]. exact H.
      * constructor; [| exact Hafter]. rewrite has_char_append, Htext. reflexivity.
  - intros params Hne Hparams.
    rewrite _history_days_effective. unfold effective_days, first_days_parameter.
    rewrite (query_of_at base _ Hbase), split_on_join_on.
    + rewrite find_all_miss; [reflexivity |].
      eapply Forall_impl; [| exact Hparams]. intros param [_ H]. exact H.
    + exact Hne.
    + eapply Forall_impl; [| exact Hparams]. intros param [H _]. exact H.
  - rewrite _history_days_effective. unfold effective_days, first_days_parameter.
    rewrite (query_of_without base Hbase). reflexivity.
Qed.

Lemma days_parameter_found_among_pairs_witness :
  _history_days_from_query Examples.lib
    ("/api/ice-history" ++
     String "?"%char (join_on "&"%char (["lake=Erie"; "Days=7"] ++ ("days=" ++ "30")%string
                                        :: ["days=200"; "x"])%list))
  = clamp 14 365 (match int_of_str Examples.lib "30" with Some n => n | None => 90 end)
  /\ _history_days_from_query Examples.lib
       ("/api/ice-history" ++ String "?"%char (join_on "&"%char ["lake=Erie"; "xdays=20"]))
     = 90
  /\ _history_days_from_query Examples.lib "/api/ice-history" = 90.
Proof.
  destruct (days_parameter_found_among_pairs Examples.lib "/api/ice-history")
    as (Hfound & Habsent & Hbare); [reflexivity |].
  split; [| split].
  - apply Hfound.
    + repeat constructor.
    + reflexivity.
    + repeat constructor.
  - apply Habsent; [discriminate | repeat constructor].
  - exact Hbare.
Defined.

(** ** Routing *)

(** X2. [do_GET] decides on the text before the first question mark only.
    A latest request is answered the same whatever its query; a request
    whose text before the query is neither of the two API paths is handed
    on as it came, with no upstream call and no reading of the clock; and a
    request that is answered is one of the two API paths, alone or followed
    by a question mark and a query. *)
Theorem do_GET_routes_on_text_before_query lib env :
  (forall query w,
      do_GET lib env ("/api/ice-latest" ++ String "?"%char query) w
      = do_GET lib env "/api/ice-latest" w)
  /\ (forall self_path w,
      nth 0 (split_once "?"%char self_path) "" <> "/api/ice-latest" ->
      nth 0 (split_once "?"%char self_path) "" <> "/api/ice-history" ->
      do_GET lib env self_path w = (Ok (Delegated self_path), w))
  /\ (forall self_path w resp w',
      do_GET lib env self_path w = (Ok (Answered resp), w') ->
      exists api tail,
        self_path = api ++ tail
        /\ (api = "/api/ice-latest" \/ api = "/api/ice-history")
        /\ (tail = "" \/ exists query, tail = String "?"%char query)).
Proof.
  split; [| split].
  - intros query w. reflexivity.
  - intros self_path w Hlatest Hhistory. unfold do_GET.
    apply String.eqb_neq in Hlatest. apply String.eqb_neq in Hhistory.
    rewrite Hlatest, Hhistory. reflexivity.
  - intros self_path w resp w' Hrun.
    destruct (path_head_and_query self_path) as [_ Hpath]. cbv zeta in Hpath.
    exists (nth 0 (split_once "?"%char self_path) ""),
           (if has_char "?"%char self_path then String "?"%char (query_of self_path) else "").
    split; [exact Hpath |]. split.
    + unfold do_GET in Hrun.
      destruct (String.eqb_spec (nth 0 (split_once "?"%char self_path) "") "/api/ice-latest")
        as [Heq | _]; [left; exact Heq |].
      destruct (String.eqb_spec (nth 0 (split_once "?"%char self_path) "") "/api/ice-history")
        as [Heq | _]; [right; exact Heq |].
      discriminate Hrun.
    + destruct (has_char "?"%char self_path); [right; eexists; reflexivity | left; reflexivity].
Qed.

Lemma do_GET_routes_witness :
  do_GET Examples.lib Examples.serving "/api/ice-latest/" initial_world
  = (Ok (Delegated "/api/ice-latest/"), initial_world)
  /\ do_GET Examples.lib Examples.serving "/index.html?days=30" initial_world
     = (Ok (Delegated "/index.html?days=30"), initial_world)
  /\ exists api tail,
       "/api/ice-history?days=10" = api ++ tail
       /\ (api = "/api/ice-latest" \/ api = "/api/ice-history")
       /\ (tail = "" \/ exists query, tail = String "?"%char query).
Proof.
  destruct (do_GET_routes_on_text_before_query Examples.lib Examples.serving)
    as (_ & Hdelegated & Hanswered).
  split; [apply Hdelegated; discriminate |].
  split; [apply Hdelegated; discriminate |].
  apply (Hanswered "/api/ice-history?days=10" initial_world
           (match fst (do_GET Examples.lib Examples.serving "/api/ice-history?days=10"
                         initial_world) with
            | Ok (Answered resp) => resp
            | _ => _send_error_json []
            end)
           (snd (do_GET Examples.lib Examples.serving "/api/ice-history?days=10"
                   initial_world))).
  vm_compute. reflexivity.
Defined.

(** ** Times in Z form *)

Lemma replace_Z_append s t : replace_Z (s ++ t) = replace_Z s ++ replace_Z t.
Proof.
  induction s as [| a s IH]; [reflexivity |].
  cbn [append replace_Z]. destruct (Ascii.eqb a "Z"%char).
  - rewrite IH. reflexivity.
  - cbn [append]. rewrite IH. reflexivity.
Qed.

Lemma replace_Z_without s : has_char "Z"%char s = false -> replace_Z s = s.
Proof.
  induction s as [| a s IH]; intros H; [reflexivity |].
  cbn [has_char] in H. apply orb_false_iff in H. destruct H as [Ha Hs].
  cbn [replace_Z]. rewrite Ha, (IH Hs). reflexivity.
Qed.

Lemma replace_Z_leaves_none s : has_char "Z"%char (replace_Z s) = false.
Proof.
  induction s as [| a s IH]; [reflexivity |].
  cbn [replace_Z]. destruct (Ascii.eqb a "Z"%char) eqn:Ha.
  - rewrite has_char_append, IH. reflexivity.
  - cbn [has_char]. rewrite Ha, IH. reflexivity.
Qed.

(** X3. [_parse_time] reads a time that ends in [Z] exactly as the same
    time ending in [+00:00]; what it passes to [fromisoformat] never
    contains a [Z]; and a text without [Z] is passed on unchanged. *)
Theorem parse_time_reads_Z_as_utc_offset lib s :
  _parse_time lib (s ++ "Z") = _parse_time lib (s ++ "+00:00")
  /\ has_char "Z"%char (replace_Z s) = false
  /\ (has_char "Z"%char s = false ->
      _parse_time lib s = fromisoformat lib s
      /\ _parse_time lib (s ++ "Z") = fromisoformat lib (s ++ "+00:00")).
Proof.
  unfold _parse_time. split; [| split].
  - rewrite !replace_Z_append. reflexivity.
  - apply replace_Z_leaves_none.
  - intros H. rewrite replace_Z_append, (replace_Z_without s H). split; reflexivity.
Qed.

Lemma parse_time_reads_Z_witness :
  _parse_time Examples.lib "2024-03-01T00:00:00" = fromisoformat Examples.lib "2024-03-01T00:00:00"
  /\ _parse_time Examples.lib ("2024-03-01T00:00:00" ++ "Z")
     = fromisoformat Examples.lib ("2024-03-01T00:00:00" ++ "+00:00").
Proof.
  destruct (parse_time_reads_Z_as_utc_offset Examples.lib "2024-03-01T00:00:00")
    as (_ & _ & H).
  apply H. reflexivity.
Defined.

(** ** What a request sends upstream *)

Lemma check_response_ok payload status body :
  check_response payload status = Ok body ->
  body = payload /\ payload <> [] /\ 200 <= status < 300.
Proof.
  unfold check_response. intros H.
  destruct (200 <=? status) eqn:Hlo; destruct (status <? 300) eqn:Hhi;
    cbn [andb negb] in H; try discriminate H.
  destruct payload as [| b payload]; [discriminate H |]. inversion H; subst.
  apply Z.leb_le in Hlo. apply Z.ltb_lt in Hhi. repeat split; [discriminate | lia | lia].
Qed.

(** One [_fetch_url]: the clock is not read; the strict call is sent and,
    at most, the unverified one after it; bytes are returned only from an
    answer with a status in [200, 300) and a body that is not empty. *)
Lemma _fetch_url_effect env endpoint w out w' :
  _fetch_url env endpoint w = (out, w') ->
  ticks w' = ticks w
  /\ exists retried,
       net_log w' = (net_log w ++ calls_of (endpoint, retried))%list
       /\ forall payload, out = Ok payload ->
            payload <> []
            /\ exists wr r,
                 urlopen env wr (make_request endpoint
                                   (if retried then UnverifiedContext else StrictContext)) = Ok r
                 /\ resp_body r = payload /\ 200 <= status_of r < 300.
Proof.
  rewrite _fetch_url_cases. cbv zeta.
  destruct (urlopen env w (make_request endpoint StrictContext)) as [r | exc] eqn:Hfirst.
  - intros H. inversion H; subst. split; [reflexivity |]. exists false.
    split; [reflexivity |]. intros payload Hok.
    apply check_response_ok in Hok. destruct Hok as (-> & Hne & Hstatus).
    split; [exact Hne |]. exists w, r. repeat split; try assumption; lia.
  - destruct (isinstance exc FETCH_CAUGHT && _is_certificate_error exc).
    + intros H. inversion H; subst. split; [reflexivity |]. exists true.
      split; [cbn [sent net_log calls_of fst snd]; rewrite <- app_assoc; reflexivity |].
      intros payload Hok.
      destruct (urlopen env (sent (make_request endpoint StrictContext) w)
                  (make_request endpoint UnverifiedContext)) as [r | again] eqn:Hretry;
        [| discriminate Hok].
      apply check_response_ok in Hok. destruct Hok as (-> & Hne & Hstatus).
      split; [exact Hne |]. eexists _, r. repeat split; try eassumption; lia.
    + intros H. inversion H; subst. split; [reflexivity |]. exists false.
      split; [reflexivity |]. intros payload Hok. discriminate Hok.
Qed.

Lemma latest_loop_effect env endpoints : forall errors w,
  ticks (snd (latest_loop env endpoints errors w)) = ticks w
  /\ exists fetches,
       net_log (snd (latest_loop env endpoints errors w))
       = (net_log w ++ flat_map calls_of fetches)%list
       /\ map fst fetches = firstn (List.length fetches) endpoints
       /\ (endpoints <> [] -> fetches <> []).
Proof.
  induction endpoints as [| endpoint rest IH]; intros errors w.
  - split; [reflexivity |]. exists []. cbn. rewrite app_nil_r.
    repeat split. intros H. contradiction.
  - cbn [latest_loop]. unfold try_except. rewrite latest_attempt_cases.
    destruct (_fetch_url env endpoint w) as [out w1] eqn:Hfetch.
    destruct (_fetch_url_effect env endpoint w out w1 Hfetch)
      as (Hticks & retried & Hlog & _).
    assert (Hone : ticks w1 = ticks w
                   /\ exists fetches,
                        net_log w1 = (net_log w ++ flat_map calls_of fetches)%list
                        /\ map fst fetches
                           = firstn (List.length fetches) (endpoint :: rest)
                        /\ (endpoint :: rest <> [] -> fetches <> [])).
    { split; [exact Hticks |]. exists [(endpoint, retried)].
      cbn [flat_map]. rewrite app_nil_r. repeat split; [exact Hlog | discriminate]. }
    destruct out as [payload | exc]; [exact Hone |].
    destruct (isinstance exc CAUGHT); [| exact Hone].
    destruct (IH (errors ++ [detail endpoint exc])%list w1)
      as (Hticks' & fetches & Hlog' & Hprefix & _).
    split; [rewrite Hticks'; exact Hticks |].
    exists ((endpoint, retried) :: fetches).
    rewrite Hlog', Hlog. cbn [flat_map map List.length firstn fst].
    rewrite <- app_assoc, Hprefix. repeat split. discriminate.
Qed.

(** X4. A latest request never reads the clock and fetches a first part
    of the list of latest endpoints, in list order, at least the first:
    what it sends is, for each endpoint fetched, the strict call and at most
    one unverified call directly after it to the same endpoint, so between
    one and four calls, each with the fixed User-Agent and the timeout of 14
    seconds. *)
Theorem latest_request_calls_in_list_order env w :
  ticks (snd (_handle_ice_latest env w)) = ticks w
  /\ exists fetches,
       net_log (snd (_handle_ice_latest env w))
       = (net_log w ++ flat_map calls_of fetches)%list
       /\ (map fst fetches = firstn 1 NOAA_LATEST_ENDPOINTS
           \/ map fst fetches = NOAA_LATEST_ENDPOINTS)
       /\ (1 <= List.length (flat_map calls_of fetches) <= 4)%nat
       /\ Forall (fun c => call_user_agent c = "GreatLakesIceWatch/1.0"
                           /\ call_timeout c = 14
                           /\ In (call_url c) NOAA_LATEST_ENDPOINTS)
                 (flat_map calls_of fetches).
Proof.
  destruct (latest_loop_effect env NOAA_LATEST_ENDPOINTS [] w)
    as (Hticks & fetches & Hlog & Hprefix & Hne).
  split; [exact Hticks |]. exists fetches. split; [exact Hlog |].
  assert (Hcases : (exists r1, fetches = [(nth 0 NOAA_LATEST_ENDPOINTS "", r1)])
                   \/ (exists r1 r2, fetches = [(nth 0 NOAA_LATEST_ENDPOINTS "", r1);
                                                (nth 1 NOAA_LATEST_ENDPOINTS "", r2)])).
  { destruct fetches as [| [e1 r1] [| [e2 r2] [| f3 fetches]]].
    - exfalso. apply Hne; [discriminate | reflexivity].
    - left. exists r1. cbn in Hprefix. inversion Hprefix; subst. reflexivity.
    - right. exists r1, r2. cbn in Hprefix. inversion Hprefix; subst. reflexivity.
    - cbn in Hprefix. discriminate Hprefix. }
  destruct Hcases as [(r1 & ->) | (r1 & r2 & ->)].
  - split; [left; reflexivity |].
    split; [destruct r1; cbn; lia |].
    destruct r1; cbn; repeat constructor.
  - split; [right; reflexivity |].
    split; [destruct r1, r2; cbn; lia |].
    destruct r1, r2; cbn; repeat (constructor; try (right; left; reflexivity)).
Qed.

Lemma latest_loop_answer env endpoints errors w resp w' :
  latest_loop env endpoints errors w = (Ok resp, w') ->
  (exists details wl,
      all_failed (latest_attempt env) w endpoints details wl
      /\ resp = _send_error_json (errors ++ details))
  \/ (exists endpoint payload w1,
        In endpoint endpoints
        /\ _fetch_url env endpoint w1 = (Ok payload, w')
        /\ resp = mkHttpResponse 200 JSON_HEADERS (RawBody payload)).
Proof.
  intros Hrun.
  destruct (loop_outcome (latest_attempt env) (latest_loop env)
              (fun _ => eq_refl) (fun _ _ _ => eq_refl) endpoints errors w)
    as [(details & wl & Hall & Hout)
       | (tried & endpoint & rest & details & w1 & w2 & Heq & _
          & [(resp' & Hattempt & Hout) | (exc & _ & _ & Hout)])];
    rewrite Hout in Hrun; inversion Hrun; subst.
  - left. exists details, w'. split; [exact Hall | reflexivity].
  - right. rewrite latest_attempt_cases in Hattempt.
    destruct (_fetch_url env endpoint w1) as [[payload | exc] w3] eqn:Hfetch;
      [| discriminate Hattempt].
    inversion Hattempt; subst. exists endpoint, payload, w1.
    split; [apply in_or_app; right; left; reflexivity |].
    split; [exact Hfetch | reflexivity].
Qed.

(** X5. Whenever a latest request is answered with 200, the body is the
    body of an answer one of the latest endpoints gave with a status in
    [200, 300), byte for byte, and it is not empty. *)
Theorem latest_success_forwards_upstream_body env w resp w' :
  _handle_ice_latest env w = (Ok resp, w') ->
  http_status resp = 200 ->
  exists payload endpoint context wr r,
    resp = mkHttpResponse 200 JSON_HEADERS (RawBody payload)
    /\ payload <> []
    /\ In endpoint NOAA_LATEST_ENDPOINTS
    /\ urlopen env wr (make_request endpoint context) = Ok r
    /\ resp_body r = payload
    /\ 200 <= status_of r < 300.
Proof.
  intros Hrun Hstatus.
  destruct (latest_loop_answer env NOAA_LATEST_ENDPOINTS [] w resp w' Hrun)
    as [(details & wl & _ & ->) | (endpoint & payload & w1 & Hin & Hfetch & ->)];
    [discriminate Hstatus |].
  destruct (_fetch_url_effect env endpoint w1 _ _ Hfetch) as (_ & retried & _ & Hok).
  destruct (Hok payload eq_refl) as (Hne & wr & r & Hopen & Hbody & Hcode).
  exists payload, endpoint, (if retried then UnverifiedContext else StrictContext), wr, r.
  repeat split; try assumption; lia.
Qed.

Lemma latest_success_forwards_witness :
  exists payload endpoint context wr r,
    mkHttpResponse 200 JSON_HEADERS (RawBody (Reference.ascii_bytes "{}"))
    = mkHttpResponse 200 JSON_HEADERS (RawBody payload)
    /\ payload <> []
    /\ In endpoint NOAA_LATEST_ENDPOINTS
    /\ urlopen (Reference.env [Raise Examples.timed_out;
                               Ok (mkResponse None (Reference.ascii_bytes "{}"))] [])
         wr (make_request endpoint context) = Ok r
    /\ resp_body r = payload
    /\ 200 <= status_of r < 300.
Proof.
  apply (latest_success_forwards_upstream_body
           (Reference.env [Raise Examples.timed_out;
                           Ok (mkResponse None (Reference.ascii_bytes "{}"))] [])
           initial_world _
           (snd (_handle_ice_latest
                   (Reference.env [Raise Examples.timed_out;
                                   Ok (mkResponse None (Reference.ascii_bytes "{}"))] [])
                   initial_world))).
  - vm_compute. reflexivity.
  - reflexivity.
Defined.

(** ** The shape of every answer *)

Lemma prefix_append_right s : forall t u,
  String.prefix s t = true -> String.prefix s (t ++ u) = true.
Proof.
  induction s as [| a s IH]; intros t u H; [destruct (t ++ u); reflexivity |].
  destruct t as [| b t]; [discriminate H |].
  cbn [append String.prefix] in H |- *.
  destruct (ascii_dec a b); [apply IH; exact H | discriminate H].
Qed.

Lemma all_failed_two {A} (attempt : string -> M A) w e1 e2 details w' :
  all_failed attempt w [e1; e2] details w' ->
  exists x1 x2, details = [detail e1 x1; detail e2 x2].
Proof.
  intros H. inversion H as [| ? ? x1 ? ? ? ? _ _ H']; subst.
  inversion H' as [| ? ? x2 ? ? ? ? _ _ H'']; subst.
  inversion H''; subst. exists x1, x2. reflexivity.
Qed.

Lemma _history_endpoint_run lib env days w :
  _history_endpoint lib env days w
  = (Ok (NOAA_BASE_ENDPOINT ++ "&time%3E=" ++
         strftime lib "%Y-%m-%dT00:00:00Z" (clock env (ticks w) - (days + 7) * DAY)),
     mkWorld (net_log w) (S (ticks w))).
Proof. reflexivity. Qed.

(** X6. Every answer [do_GET] gives itself carries the two JSON headers
    (content type and no-store) and has status 200 or 502.  A 200 answer
    has the upstream bytes or a history response as its body; a 502 answer
    is the error report with exactly two entries, the first for the first
    endpoint tried and the second for the fallback, each starting with the
    base endpoint. *)
Theorem api_answers_are_json_200_or_502 lib env self_path w resp w' :
  do_GET lib env self_path w = (Ok (Answered resp), w') ->
  http_headers resp = JSON_HEADERS
  /\ ((http_status resp = 200
       /\ ((exists payload, http_body_of resp = RawBody payload)
           \/ (exists generated days rows,
                 http_body_of resp = JsonBody (history_response generated days rows))))
      \/ (exists d1 d2,
            resp = mkHttpResponse 502 JSON_HEADERS
                     (JsonBody (JDict [("error", JStr "Unable to fetch NOAA data.");
                                       ("details", JList [JStr d1; JStr d2])]))
            /\ String.prefix NOAA_BASE_ENDPOINT d1 = true
            /\ String.prefix NOAA_BASE_ENDPOINT d2 = true)).
Proof.
  unfold do_GET.
  destruct (String.eqb (nth 0 (split_once "?"%char self_path) "") "/api/ice-latest").
  - unfold bind, ret.
    destruct (_handle_ice_latest env w) as [[resp0 | exc] w0] eqn:Hrun;
      [| discriminate].
    intros H. inversion H; subst.
    destruct (latest_loop_answer env NOAA_LATEST_ENDPOINTS [] w resp w' Hrun)
      as [(details & wl & Hall & ->) | (endpoint & payload & w1 & _ & _ & ->)].
    + split; [reflexivity |]. right.
      destruct (all_failed_two _ _ _ _ _ _ Hall) as (x1 & x2 & ->).
      eexists _, _. split; [reflexivity |].
      split; apply prefix_append_right; reflexivity.
    + split; [reflexivity |]. left. split; [reflexivity |]. left. eexists. reflexivity.
  - destruct (String.eqb (nth 0 (split_once "?"%char self_path) "") "/api/ice-history");
      [| discriminate].
    unfold bind, ret.
    destruct (_handle_ice_history lib env self_path w) as [[resp0 | exc] w0] eqn:Hrun;
      [| discriminate].
    intros H. inversion H; subst. clear H.
    unfold _handle_ice_history, bind in Hrun. rewrite _history_endpoint_run in Hrun.
    set (days := _history_days_from_query lib self_path) in *.
    set (first := NOAA_BASE_ENDPOINT ++ "&time%3E=" ++
                  strftime lib "%Y-%m-%dT00:00:00Z" (clock env (ticks w) - (days + 7) * DAY))
      in *.
    destruct (loop_outcome (history_attempt lib env days) (history_loop lib env days)
                (fun _ => eq_refl) (fun _ _ _ => eq_refl) [first; NOAA_BASE_ENDPOINT] []
                (mkWorld (net_log w) (S (ticks w))))
      as [(details & wl & Hall & Hout)
         | (tried & endpoint & rest & details & w1 & w2 & _ & _
            & [(resp' & Hattempt & Hout) | (exc & _ & _ & Hout)])];
      rewrite Hout in Hrun; inversion Hrun; subst.
    + split; [reflexivity |]. right.
      destruct (all_failed_two _ _ _ _ _ _ Hall) as (x1 & x2 & ->).
      eexists _, _. split; [reflexivity |].
      split; apply prefix_append_right; [apply prefix_of_append | reflexivity].
    + destruct (history_attempt_ok _ _ _ _ _ _ _ Hattempt) as (generated & rows & _ & ->).
      split; [reflexivity |]. left. split; [reflexivity |]. right.
      eexists _, _, _. reflexivity.
Qed.

Lemma api_answers_witness :
  http_headers (_send_error_json [(Examples.primary ++ ": HTTP 503")%string;
                                  (Examples.fallback ++ ": HTTP 503")%string])
  = JSON_HEADERS
  /\ ((http_status (_send_error_json [(Examples.primary ++ ": HTTP 503")%string;
                                      (Examples.fallback ++ ": HTTP 503")%string]) = 200
       /\ ((exists payload,
               http_body_of (_send_error_json [(Examples.primary ++ ": HTTP 503")%string;
                                               (Examples.fallback ++ ": HTTP 503")%string])
               = RawBody payload)
           \/ (exists generated days rows,
                 http_body_of (_send_error_json [(Examples.primary ++ ": HTTP 503")%string;
                                                 (Examples.fallback ++ ": HTTP 503")%string])
                 = JsonBody (history_response generated days rows))))
      \/ (exists d1 d2,
            _send_error_json [(Examples.primary ++ ": HTTP 503")%string;
                              (Examples.fallback ++ ": HTTP 503")%string]
            = mkHttpResponse 502 JSON_HEADERS
                (JsonBody (JDict [("error", JStr "Unable to fetch NOAA data.");
                                  ("details", JList [JStr d1; JStr d2])]))
            /\ String.prefix NOAA_BASE_ENDPOINT d1 = true
            /\ String.prefix NOAA_BASE_ENDPOINT d2 = true)).
Proof.
  apply (api_answers_are_json_200_or_502 Examples.lib Examples.unavailable
           "/api/ice-latest?now" initial_world _
           (snd (do_GET Examples.lib Examples.unavailable "/api/ice-latest?now"
                   initial_world))).
  vm_compute. reflexivity.
Defined.

(** ** What the filter returns and how it fails *)


Lemma lake_entries_named lib row names entries :
  lake_entries lib row names = Ok entries ->
  map fst entries = names
  /\ Forall (fun entry => float_or_null (snd entry) = true) entries.
Proof.
  intros H. apply lake_entries_ok in H.
  induction H as [| name entry names entries (x & _ & ->) _ [IHnames IHall]].
  - split; [reflexivity | constructor].
  - split; [cbn [map fst]; rewrite IHnames; reflexivity |].
    constructor; [destruct x; reflexivity | exact IHall].
Qed.

Lemma history_point_is_point lib time_text row point :
  history_point lib time_text row = Ok point -> is_history_point point.
Proof.
  unfold history_point. intros H.
  destruct (lake_entries lib row LAKE_FIELDS) as [entries | exc] eqn:Hentries;
    cbn [obind] in H; [| discriminate H].
  inversion H; subst. exists time_text, entries. split; [reflexivity |].
  eapply lake_entries_named. exact Hentries.
Qed.

Lemma trim_loop_returns lib cutoff rows : forall trimmed out,
  trim_loop lib (Aware cutoff) rows trimmed = Ok out ->
  exists points,
    out = (trimmed ++ points)%list
    /\ Forall2 (fun row point => history_point lib (time_text_of lib row) row = Ok point)
               (filter (in_window lib cutoff) rows) points
    /\ Forall (fun row => forall t,
                 _parse_time lib (time_text_of lib row) <> Some (Naive t)) rows.
Proof.
  induction rows as [| row rows IH]; intros trimmed out H.
  - cbn in H. inversion H; subst. exists []. rewrite app_nil_r.
    repeat split; constructor.
  - cbn [trim_loop filter] in H |- *. unfold in_window.
    destruct (_parse_time lib (time_text_of lib row)) as [[t | t] |] eqn:Hparse.
    + discriminate H.
    + cbn [datetime_ge obind] in H. destruct (cutoff <=? t).
      * destruct (history_point lib (time_text_of lib row) row) as [point | exc] eqn:Hpoint;
          cbn [obind] in H; [| discriminate H].
        destruct (IH _ _ H) as (points & -> & Hall & Haware).
        exists (point :: points). rewrite <- app_assoc.
        repeat split; [constructor; assumption |].
        constructor; [rewrite Hparse; discriminate | exact Haware].
      * destruct (IH _ _ H) as (points & -> & Hall & Haware).
        exists points. repeat split; [exact Hall |].
        constructor; [rewrite Hparse; discriminate | exact Haware].
    + destruct (IH _ _ H) as (points & -> & Hall & Haware).
      exists points. repeat split; [exact Hall |].
      constructor; [rewrite Hparse; discriminate | exact Haware].
Qed.





(** ** When decoding an envelope succeeds *)

Section DecodingOutcome.

Variable lib : pylib.

Lemma build_after_raise entries exc :
  fold_left (add_entry lib) entries (Raise exc) = Raise exc.
Proof.
  induction entries as [| [name v] entries IH]; [reflexivity | exact IH].
Qed.

Lemma dict_set_length d k v :
  (List.length (dict_set lib d k v) <= S (List.length d))%nat.
Proof.
  induction d as [| [k' v'] d IH]; [cbn; lia |].
  cbn [dict_set]. destruct (key_eqb lib k' k); cbn [List.length]; lia.
Qed.

Lemma build_outcome entries : forall d,
  match fold_left (add_entry lib) entries (Ok d) with
  | Ok row => forallb hashable (map fst entries) = true
              /\ (List.length row <= List.length d + List.length entries)%nat
  | Raise exc => forallb hashable (map fst entries) = false /\ exc_cls exc = TypeError
  end.
Proof.
  induction entries as [| [name v] entries IH]; intros d.
  - cbn. split; [reflexivity | lia].
  - cbn [fold_left map forallb fst add_entry obind]. unfold setitem.
    destruct (hashable name); cbn [andb].
    + specialize (IH (dict_set lib d name v)). revert IH.
      destruct (fold_left (add_entry lib) entries (Ok (dict_set lib d name v))) as [row | exc];
        intros IH.
      * destruct IH as [Hall Hlen]. split; [exact Hall |].
        pose proof (dict_set_length d name v). cbn [List.length]. lia.
      * exact IH.
    + rewrite build_after_raise. split; reflexivity.
Qed.

Lemma row_of_outcome column_names raw_row :
  match row_of lib column_names raw_row with
  | Ok row => forallb hashable (firstn (List.length raw_row) column_names) = true
              /\ (List.length row <= Nat.min (List.length column_names)
                                             (List.length raw_row))%nat
  | Raise exc => forallb hashable (firstn (List.length raw_row) column_names) = false
                 /\ exc_cls exc = TypeError
  end.
Proof.
  rewrite row_of_pairs, <- map_fst_combine.
  pose proof (build_outcome (combine column_names raw_row) []) as H.
  match type of H with
  | match ?run with _ => _ end =>
      match goal with
      | |- match ?run' with _ => _ end => change run' with run
      end;
      destruct run as [row | exc]
  end; [| exact H].
  destruct H as [Hall Hlen]. split; [exact Hall |].
  rewrite length_combine in Hlen. exact Hlen.
Qed.

Lemma extract_loop_outcome column_names rows : forall parsed_rows,
  match extract_loop lib column_names rows parsed_rows with
  | Ok records =>
      Forall (fun raw_row =>
                forallb hashable (firstn (List.length raw_row) column_names) = true)
             (list_rows rows)
      /\ exists built,
           records = (parsed_rows ++ built)%list
           /\ Forall2 (fun raw_row row => row_of lib column_names raw_row = Ok row)
                      (list_rows rows) built
  | Raise exc =>
      ~ Forall (fun raw_row =>
                  forallb hashable (firstn (List.length raw_row) column_names) = true)
               (list_rows rows)
      /\ exc_cls exc = TypeError
  end.
Proof.
  induction rows as [| raw rows IH]; intros parsed_rows.
  - cbn. split; [constructor |]. exists []. rewrite app_nil_r. split; [reflexivity | constructor].
  - destruct raw; cbn [extract_loop list_rows]; try apply IH.
    pose proof (row_of_outcome column_names items) as Hrow. revert Hrow.
    destruct (row_of lib column_names items) as [row | exc] eqn:Hbuilt; cbn [obind];
      intros Hrow.
    + destruct Hrow as [Hhash _]. specialize (IH (parsed_rows ++ [row])%list). revert IH.
      destruct (extract_loop lib column_names rows (parsed_rows ++ [row])) as [records | exc];
        intros IH.
      * destruct IH as (Hall & built & -> & Hbuilt').
        split; [constructor; assumption |].
        exists (row :: built). rewrite <- app_assoc.
        split; [reflexivity | constructor; assumption].
      * destruct IH as [Hnot Hcls]. split; [| exact Hcls].
        intros Hall. apply Hnot. inversion Hall; assumption.
    + destruct Hrow as [Hhash Hcls]. split; [| exact Hcls].
      intros Hall. inversion Hall as [| ? ? Hfirst _]; subst. congruence.
Qed.

(** X8. For an envelope whose [columnNames] and [rows] are lists,
    [_extract_rows] succeeds exactly when no column name that is a list or
    an object stands at a position that some list row fills (names of any
    other kind are accepted as keys); then it returns one record per list
    row, in order, each with at most as many entries as the shorter of the
    names and the row.  Otherwise it raises a [TypeError]. *)
Theorem extract_rows_succeeds_iff_names_hashable fields table column_names rows :
  dict_get fields "table" = Some (JDict table) ->
  dict_get table "columnNames" = Some (JList column_names) ->
  dict_get table "rows" = Some (JList rows) ->
  ((exists records, _extract_rows lib (JDict fields) = Ok records)
   <-> Forall (fun raw_row =>
                 forallb hashable (firstn (List.length raw_row) column_names) = true)
              (list_rows rows))
  /\ (forall records,
       _extract_rows lib (JDict fields) = Ok records ->
       Forall2 (fun raw_row row =>
                  row_of lib column_names raw_row = Ok row
                  /\ (List.length row <= Nat.min (List.length column_names)
                                                 (List.length raw_row))%nat)
               (list_rows rows) records)
  /\ (forall exc, _extract_rows lib (JDict fields) = Raise exc -> exc_cls exc = TypeError).
Proof.
  intros Htable Hnames Hrows.
  assert (Hrun : _extract_rows lib (JDict fields) = extract_loop lib column_names rows []).
  { unfold _extract_rows, get_or_none. rewrite Htable, Hnames, Hrows. reflexivity. }
  rewrite Hrun. pose proof (extract_loop_outcome column_names rows []) as Hout.
  revert Hout.
  destruct (extract_loop lib column_names rows []) as [records | exc]; intros Hout.
  - destruct Hout as (Hall & built & Heq & Hbuilt). cbn [app] in Heq. subst built.
    split; [split; [intros _; exact Hall | intros _; eexists; reflexivity] |].
    split; [| discriminate].
    intros records' H. inversion H; subst records'.
    eapply Forall2_impl; [| exact Hbuilt].
    intros raw_row row Hrow. split; [exact Hrow |].
    pose proof (row_of_outcome column_names raw_row) as Hlen. rewrite Hrow in Hlen.
    exact (proj2 Hlen).
  - destruct Hout as [Hnot Hcls].
    split; [split; [intros [records H]; discriminate H | intros Hall; contradiction] |].
    split; [discriminate |]. intros exc' H. inversion H; subst. exact Hcls.
Qed.

End DecodingOutcome.

Lemma extract_rows_succeeds_witness :
  (exists records,
      _extract_rows Examples.lib
        (JDict [("table", JDict [("columnNames", JList [JStr "time"; JInt 7; JList []]);
                                 ("rows", JList [JList [JStr "a"; JStr "b"]; JNull])])])
      = Ok records)
  /\ exc_cls (new_exn TypeError "unhashable type: 'list'") = TypeError.
Proof.
  destruct (extract_rows_succeeds_iff_names_hashable Examples.lib
              [("table", JDict [("columnNames", JList [JStr "time"; JInt 7; JList []]);
                                ("rows", JList [JList [JStr "a"; JStr "b"]; JNull])])]
              [("columnNames", JList [JStr "time"; JInt 7; JList []]);
               ("rows", JList [JList [JStr "a"; JStr "b"]; JNull])]
              [JStr "time"; JInt 7; JList []]
              [JList [JStr "a"; JStr "b"]; JNull] eq_refl eq_refl eq_refl)
    as (Hiff & _ & _).
  destruct (extract_rows_succeeds_iff_names_hashable Examples.lib
              [("table", JDict [("columnNames", JList [JList []]);
                                ("rows", JList [JList [JStr "a"]])])]
              [("columnNames", JList [JList []]); ("rows", JList [JList [JStr "a"]])]
              [JList []] [JList [JStr "a"]] eq_refl eq_refl eq_refl)
    as (_ & _ & Hraise).
  split.
  - apply Hiff. repeat constructor.
  - apply Hraise. reflexivity.
Defined.

(** ** A history answer, end to end *)

Lemma _trim_history_rows_cons lib env row rows days w :
  _trim_history_rows lib env (row :: rows) days w
  = (trim_loop lib (Aware (clock env (ticks w) - days * DAY)) (row :: rows) [],
     mkWorld (net_log w) (S (ticks w))).
Proof. reflexivity. Qed.

Lemma history_loop_answer lib env days endpoints errors w resp w' :
  history_loop lib env days endpoints errors w = (Ok resp, w') ->
  http_status resp = 200 ->
  exists endpoint w1,
    In endpoint endpoints /\ history_attempt lib env days endpoint w1 = (Ok resp, w').
Proof.
  intros Hrun Hstatus.
  destruct (loop_outcome (history_attempt lib env days) (history_loop lib env days)
              (fun _ => eq_refl) (fun _ _ _ => eq_refl) endpoints errors w)
    as [(details & wl & _ & Hout)
       | (tried & endpoint & rest & details & w1 & w2 & Heq & _
          & [(resp' & Hattempt & Hout) | (exc & _ & _ & Hout)])];
    rewrite Hout in Hrun; inversion Hrun; subst.
  - discriminate Hstatus.
  - exists endpoint, w1. split; [apply in_or_app; right; left; reflexivity | exact Hattempt].
Qed.

(** X9. Whenever a history request is answered with 200, one of its two
    endpoints, both extensions of the base endpoint, gave a body that
    decodes to records, and the rows of the answer are the points of exactly
    those records whose time is at or after now minus [days] days, in the
    order upstream gave them; there is at least one row, every row is a
    history point (time and the six lakes, each a float or null), [days] is
    the clamped days of the request and [generated_at] is the next reading
    of the clock, formatted. *)
Theorem history_success_is_window_of_upstream lib env self_path w resp w' :
  _handle_ice_history lib env self_path w = (Ok resp, w') ->
  http_status resp = 200 ->
  let days := _history_days_from_query lib self_path in
  exists endpoint payload records rows w1 w2,
    _fetch_url env endpoint w1 = (Ok payload, w2)
    /\ String.prefix NOAA_BASE_ENDPOINT endpoint = true
    /\ decode lib payload = Ok records
    /\ Forall2 (fun row point => history_point lib (time_text_of lib row) row = Ok point)
               (filter (in_window lib (clock env (ticks w2) - days * DAY)) records) rows
    /\ rows <> []
    /\ Forall is_history_point rows
    /\ 14 <= days <= 365
    /\ resp = mkHttpResponse 200 JSON_HEADERS
                (JsonBody (JDict
                   [("generated_at",
                     JStr (strftime lib "%Y-%m-%dT%H:%M:%SZ" (clock env (S (ticks w2)))));
                    ("days", JInt days);
                    ("rows", JList rows)])).
Proof.
  intros Hrun Hstatus days.
  unfold _handle_ice_history, bind in Hrun. rewrite _history_endpoint_run in Hrun.
  fold days in Hrun.
  destruct (history_loop_answer _ _ _ _ _ _ _ _ Hrun Hstatus)
    as (endpoint & w1 & Hin & Hattempt).
  rewrite history_attempt_cases in Hattempt.
  destruct (_fetch_url env endpoint w1) as [[payload | exc] w2] eqn:Hfetch;
    [| discriminate Hattempt].
  fold (decode lib payload) in Hattempt.
  destruct (decode lib payload) as [[| row records] | exc] eqn:Hdecode;
    try discriminate Hattempt.
  rewrite _trim_history_rows_cons in Hattempt.
  destruct (trim_loop lib (Aware (clock env (ticks w2) - days * DAY)) (row :: records) [])
    as [[| point points] | exc] eqn:Htrim; try discriminate Hattempt.
  inversion Hattempt; subst resp w'. clear Hattempt.
  destruct (trim_loop_returns lib _ _ _ _ Htrim) as (kept & Hkept & Hall & _).
  cbn [app] in Hkept. subst kept.
  exists endpoint, payload, (row :: records), (point :: points), w1, w2.
  split; [exact Hfetch |].
  split.
  { destruct Hin as [<- | [<- | []]]; [apply prefix_of_append | reflexivity]. }
  split; [exact Hdecode |]. split; [exact Hall |]. split; [discriminate |].
  split.
  { clear - Hall. induction Hall as [| r p rs ps Hp _ IH]; constructor; [| exact IH].
    eapply history_point_is_point. exact Hp. }
  split; [unfold days, _history_days_from_query; lia | reflexivity].
Qed.

Lemma history_success_witness :
  exists endpoint payload records rows w1 w2,
    _fetch_url Examples.serving endpoint w1 = (Ok payload, w2)
    /\ String.prefix NOAA_BASE_ENDPOINT endpoint = true
    /\ decode Examples.lib payload = Ok records
    /\ Forall2 (fun row point =>
                  history_point Examples.lib (time_text_of Examples.lib row) row = Ok point)
               (filter (in_window Examples.lib
                          (clock Examples.serving (ticks w2)
                           - _history_days_from_query Examples.lib "/api/ice-history?days=10"
                             * DAY))
                       records) rows
    /\ rows <> []
    /\ Forall is_history_point rows
    /\ 14 <= _history_days_from_query Examples.lib "/api/ice-history?days=10" <= 365
    /\ match fst (_handle_ice_history Examples.lib Examples.serving
                    "/api/ice-history?days=10" initial_world) with
       | Ok resp => resp
       | Raise _ => _send_error_json []
       end
       = mkHttpResponse 200 JSON_HEADERS
           (JsonBody (JDict
              [("generated_at",
                JStr (strftime Examples.lib "%Y-%m-%dT%H:%M:%SZ"
                        (clock Examples.serving (S (ticks w2)))));
               ("days", JInt (_history_days_from_query Examples.lib
                                "/api/ice-history?days=10"));
               ("rows", JList rows)])).
Proof.
  apply (history_success_is_window_of_upstream Examples.lib Examples.serving
           "/api/ice-history?days=10" initial_world _
           (snd (_handle_ice_history Examples.lib Examples.serving
                   "/api/ice-history?days=10" initial_world))).
  - vm_compute. reflexivity.
  - reflexivity.
Defined.

(** ** What a history request sends upstream *)

Lemma append_right_empty s t : (s ++ t)%string = s -> t = ""%string.
Proof.
  induction s as [| a s IH]; intros H; [exact H |].
  cbn [append] in H. inversion H. apply IH. assumption.
Qed.

Lemma history_attempt_effect lib env days endpoint w :
  exists retried,
    net_log (snd (history_attempt lib env days endpoint w))
    = (net_log w ++ calls_of (endpoint, retried))%list
    /\ match fst (history_attempt lib env days endpoint w) with
       | Ok _ => ticks (snd (history_attempt lib env days endpoint w)) = (ticks w + 2)%nat
       | Raise _ =>
           (ticks w <= ticks (snd (history_attempt lib env days endpoint w)) <= ticks w + 1)%nat
       end.
Proof.
  rewrite history_attempt_cases.
  destruct (_fetch_url env endpoint w) as [out w1] eqn:Hfetch.
  destruct (_fetch_url_effect env endpoint w out w1 Hfetch) as (Hticks & retried & Hlog & _).
  exists retried. destruct out as [payload | exc].
  - destruct (obind (loads_utf8 lib payload) (_extract_rows lib)) as [[| row rows] | exc];
      cbn [fst snd]; try (split; [exact Hlog | lia]).
    rewrite _trim_history_rows_cons.
    destruct (trim_loop lib (Aware (clock env (ticks w1) - days * DAY)) (row :: rows) [])
      as [[| point points] | exc]; cbn [fst snd net_log ticks]; split; try exact Hlog; lia.
  - cbn [fst snd]. split; [exact Hlog | lia].
Qed.

Lemma history_loop_effect lib env days endpoints : forall errors w,
  exists fetches,
    net_log (snd (history_loop lib env days endpoints errors w))
    = (net_log w ++ flat_map calls_of fetches)%list
    /\ map fst fetches = firstn (List.length fetches) endpoints
    /\ (endpoints <> [] -> fetches <> [])
    /\ (ticks w <= ticks (snd (history_loop lib env days endpoints errors w))
        <= ticks w + List.length fetches + 1)%nat.
Proof.
  induction endpoints as [| endpoint rest IH]; intros errors w.
  - exists []. cbn. rewrite app_nil_r. repeat split; try lia. intros H. contradiction.
  - cbn [history_loop]. unfold try_except.
    destruct (history_attempt_effect lib env days endpoint w) as (retried & Hlog & Hticks).
    destruct (history_attempt lib env days endpoint w) as [out w1].
    cbn [fst snd] in Hlog, Hticks.
    assert (Hone : forall o,
               (ticks w <= ticks w1 <= ticks w + 2)%nat ->
               exists fetches,
                 net_log (snd (o : outcome http_response, w1))
                 = (net_log w ++ flat_map calls_of fetches)%list
                 /\ map fst fetches = firstn (List.length fetches) (endpoint :: rest)
                 /\ (endpoint :: rest <> [] -> fetches <> [])
                 /\ (ticks w <= ticks (snd (o, w1)) <= ticks w + List.length fetches + 1)%nat).
    { intros o Hbound. exists [(endpoint, retried)]. cbn [flat_map snd]. rewrite app_nil_r.
      repeat split; try exact Hlog; try discriminate; cbn [List.length]; lia. }
    destruct out as [resp | exc]; [apply Hone; lia |].
    destruct (isinstance exc CAUGHT); [| apply Hone; lia].
    destruct (IH (errors ++ [detail endpoint exc])%list w1)
      as (fetches & Hlog' & Hprefix & _ & Hticks').
    exists ((endpoint, retried) :: fetches).
    rewrite Hlog', Hlog. cbn [flat_map map List.length firstn fst].
    rewrite <- app_assoc, Hprefix. repeat split; try discriminate; lia.
Qed.

(** X10. A history request reads the clock first, for the cutoff of its
    first endpoint (the base endpoint with a lower bound on the time, never
    equal to the base endpoint itself), and then fetches that endpoint and,
    at most, the base endpoint after it: for each the strict call and at most
    one unverified call directly after it, so between one and four calls.
    It reads the clock between one and four times. *)
Theorem history_request_calls_in_order lib env self_path w :
  let days := _history_days_from_query lib self_path in
  let first := NOAA_BASE_ENDPOINT ++ "&time%3E=" ++
               strftime lib "%Y-%m-%dT00:00:00Z" (clock env (ticks w) - (days + 7) * DAY) in
  first <> NOAA_BASE_ENDPOINT
  /\ exists fetches,
       net_log (snd (_handle_ice_history lib env self_path w))
       = (net_log w ++ flat_map calls_of fetches)%list
       /\ (map fst fetches = [first] \/ map fst fetches = [first; NOAA_BASE_ENDPOINT])
       /\ (1 <= List.length (flat_map calls_of fetches) <= 4)%nat
       /\ (ticks w + 1 <= ticks (snd (_handle_ice_history lib env self_path w))
           <= ticks w + 4)%nat.
Proof.
  intros days first. split.
  - intros H. apply append_right_empty in H. discriminate H.
  - unfold _handle_ice_history, bind. rewrite _history_endpoint_run.
    fold days. fold first.
    destruct (history_loop_effect lib env days [first; NOAA_BASE_ENDPOINT] []
                (mkWorld (net_log w) (S (ticks w))))
      as (fetches & Hlog & Hprefix & Hne & Hticks).
    exists fetches. cbn [net_log ticks] in Hlog, Hticks. split; [exact Hlog |].
    destruct fetches as [| [e1 r1] [| [e2 r2] [| f3 fetches]]].
    + exfalso. apply Hne; [discriminate | reflexivity].
    + cbn in Hprefix. inversion Hprefix; subst.
      split; [left; reflexivity |]. cbn [List.length] in Hticks.
      split; [destruct r1; cbn; lia | lia].
    + cbn in Hprefix. inversion Hprefix; subst.
      split; [right; reflexivity |]. cbn [List.length] in Hticks.
      split; [destruct r1, r2; cbn; lia | lia].
    + cbn in Hprefix. discriminate Hprefix.
Qed.

(** ** Fetching JSON *)



(** ** No data is a failure *)

(** X12. In the loop of the history handler, an endpoint whose body
    decodes to no record at all is recorded as "<endpoint>: No rows
    returned", and one whose records are all outside the window as
    "<endpoint>: No rows in requested date range"; in both cases the loop
    goes on with the next endpoint, so a 200 answer never has an empty list
    of rows. *)
Theorem empty_data_falls_through lib env days endpoint rest errors w payload w1 :
  _fetch_url env endpoint w = (Ok payload, w1) ->
  (decode lib payload = Ok [] ->
   history_loop lib env days (endpoint :: rest) errors w
   = history_loop lib env days rest
       (errors ++ [(endpoint ++ ": No rows returned")%string]) w1)
  /\ (forall records,
       records <> [] ->
       decode lib payload = Ok records ->
       fst (_trim_history_rows lib env records days w1) = Ok [] ->
       history_loop lib env days (endpoint :: rest) errors w
       = history_loop lib env days rest
           (errors ++ [(endpoint ++ ": No rows in requested date range")%string])
           (mkWorld (net_log w1) (S (ticks w1)))).
Proof.
  intros Hfetch. split.
  - intros Hdecode. cbn [history_loop]. unfold try_except.
    rewrite history_attempt_cases, Hfetch. fold (decode lib payload). rewrite Hdecode.
    reflexivity.
  - intros records Hne Hdecode Htrim. cbn [history_loop]. unfold try_except.
    rewrite history_attempt_cases, Hfetch. fold (decode lib payload). rewrite Hdecode.
    destruct records as [| row records]; [contradiction |].
    rewrite _trim_history_rows_cons in Htrim |- *. cbn [fst] in Htrim. rewrite Htrim.
    reflexivity.
Qed.

Lemma empty_data_falls_through_witness :
  fst (_handle_ice_history MoreExamples.lib MoreExamples.serving_no_rows
         "/api/ice-history" initial_world)
  = fst (history_loop MoreExamples.lib MoreExamples.serving_no_rows 90 []
           ([] ++ [((NOAA_BASE_ENDPOINT ++ "&time%3E=2023-12-04T00:00:00Z")
                    ++ ": No rows returned")%string]
               ++ [(NOAA_BASE_ENDPOINT ++ ": No rows returned")%string])%list
           initial_world)
  /\ fst (history_loop MoreExamples.lib MoreExamples.serving_late 90
            [NOAA_BASE_ENDPOINT] [] initial_world)
     = Ok (_send_error_json [(NOAA_BASE_ENDPOINT ++ ": No rows in requested date range")%string]).
Proof.
  split.
  - vm_compute. reflexivity.
  - destruct (empty_data_falls_through MoreExamples.lib MoreExamples.serving_late 90
                NOAA_BASE_ENDPOINT [] [] initial_world
                (Reference.ascii_bytes Examples.envelope_text)
                (sent (make_request NOAA_BASE_ENDPOINT StrictContext) initial_world))
      as [_ Hrange]; [reflexivity |].
    rewrite (Hrange (match decode MoreExamples.lib
                             (Reference.ascii_bytes Examples.envelope_text) with
                     | Ok records => records
                     | Raise _ => []
                     end)).
    + reflexivity.
    + vm_compute. discriminate.
    + vm_compute. reflexivity.
    + vm_compute. reflexivity.
Defined.

(** ** The two windows *)




